(** * auto-git-commit-message: change analysis and prompt/response pipeline

    A shallow embedding of the JavaScript sources

      - [GitAnalyzer]         (gitAnalyzer.js)
      - [DashScopeGenerator]  (dashscopeGenerator.js)
      - [AICommitGenerator]   (aiCommitGenerator.js)
      - [GitAutoCommit]       (index.js)

    followed by the properties of the specification that were checked
    against it.  Strings are sequences of UTF-16 code units, as in
    JavaScript; asynchronous methods that talk to git or to a provider are
    functions in a state-and-exception monad over an arbitrary world. *)

From Stdlib Require String.
From Stdlib Require Import List NArith ZArith Arith Bool Ascii Lia.
From Stdlib Require Import Floats.SpecFloat.
Import ListNotations.
Import String.StringSyntax.
Delimit Scope string_scope with string.

Set Implicit Arguments.

(* ====================================================================== *)
(** * Part I: definitions *)
(* ====================================================================== *)

(** ** JavaScript strings and the built-ins the sources call *)

Module JS.

(** A string is its sequence of UTF-16 code units. *)
Definition code_unit := N.
Definition jsstring := list code_unit.

(** ASCII literals of the sources. *)
Definition js (s : String.string) : jsstring :=
  map N_of_ascii (String.list_ascii_of_string s).

Definition NL : code_unit := 10%N.      (* '\n' *)
Definition SLASH : code_unit := 47%N.   (* '/'  *)

Fixpoint str_eqb (a b : jsstring) : bool :=
  match a, b with
  | [], [] => true
  | x :: a', y :: b' => N.eqb x y && str_eqb a' b'
  | _, _ => false
  end.

(** ToBoolean of a string: only the empty string is falsy. *)
Definition truthy (s : jsstring) : bool :=
  match s with [] => false | _ :: _ => true end.

(** [s.split(sep)] for a one-character separator. *)
Fixpoint split (sep : code_unit) (s : jsstring) : list jsstring :=
  match s with
  | [] => [[]]
  | c :: s' =>
      if N.eqb c sep then [] :: split sep s'
      else match split sep s' with
           | [] => [[c]]
           | l :: ls => (c :: l) :: ls
           end
  end.

(** [parts.join(sep)]. *)
Fixpoint join (sep : jsstring) (parts : list jsstring) : jsstring :=
  match parts with
  | [] => []
  | [p] => p
  | p :: rest => p ++ sep ++ join sep rest
  end.

(** [s.startsWith(p)]. *)
Fixpoint startsWith (s p : jsstring) : bool :=
  match p, s with
  | [], _ => true
  | _ :: _, [] => false
  | a :: p', b :: s' => N.eqb b a && startsWith s' p'
  end.

(** [s.includes(p)]. *)
Fixpoint includes (s p : jsstring) : bool :=
  startsWith s p ||
  match s with
  | [] => false
  | _ :: s' => includes s' p
  end.

(** [[...new Set(xs)]]: a Set keeps its members in the order of their
    first insertion; [add] of a member already present changes nothing. *)
Definition Set_has (x : jsstring) (members : list jsstring) : bool :=
  existsb (str_eqb x) members.

Definition Set_add (members : list jsstring) (x : jsstring) : list jsstring :=
  if Set_has x members then members else members ++ [x].

Definition Set_of (xs : list jsstring) : list jsstring :=
  fold_left Set_add xs [].

(** White space and line terminators removed by [trim()]. *)
Definition is_whitespace (c : code_unit) : bool :=
  existsb (N.eqb c)
    [9; 10; 11; 12; 13; 32; 160; 5760; 8232; 8233; 8239; 8287; 12288; 65279]%N
  || (N.leb 8192 c && N.leb c 8202).

Fixpoint trimStart (s : jsstring) : jsstring :=
  match s with
  | c :: s' => if is_whitespace c then trimStart s' else s
  | [] => []
  end.

Definition trim (s : jsstring) : jsstring :=
  rev (trimStart (rev (trimStart s))).

(** Line terminators, which [.] in a regular expression does not match. *)
Definition is_line_terminator (c : code_unit) : bool :=
  existsb (N.eqb c) [10; 13; 8232; 8233]%N.

End JS.

Import JS.
Arguments js s%_string.

(** ** A plain object used as a counter table ([scopeCounts]) *)

Module Obj.

(** The values the tally can hold.  A count is a number; as soon as a key
    names a member inherited from [Object.prototype], [(o[k] || 0) + 1]
    concatenates the member's text with ["1"] and the key holds a string. *)
Inductive value :=
| Num (n : nat)
| Str (s : jsstring).

(** Own enumerable properties, in the order of their creation. *)
Definition object := list (jsstring * value).

Definition empty : object := [].

Fixpoint own (o : object) (k : jsstring) : option value :=
  match o with
  | [] => None
  | (k', v) :: o' => if str_eqb k k' then Some v else own o' k
  end.

(** Members a plain object inherits, with the string their value converts
    to (Node's text for built-in functions).  [__proto__] is an accessor
    whose getter returns [Object.prototype] itself. *)
Definition native_function (name : jsstring) : jsstring :=
  js "function " ++ name ++ js "() { [native code] }".

Definition function_members : list jsstring :=
  [js "__defineGetter__"; js "__defineSetter__"; js "hasOwnProperty";
   js "__lookupGetter__"; js "__lookupSetter__"; js "isPrototypeOf";
   js "propertyIsEnumerable"; js "toString"; js "valueOf";
   js "toLocaleString"].

Definition inherited (k : jsstring) : option jsstring :=
  if str_eqb k (js "constructor") then Some (native_function (js "Object"))
  else if str_eqb k (js "__proto__") then Some (js "[object Object]")
  else if existsb (str_eqb k) function_members then Some (native_function k)
  else None.

(** [(o[k] || 0) + 1]. *)
Definition incremented (o : object) (k : jsstring) : value :=
  match own o k with
  | Some (Num n) => Num (n + 1)
  | Some (Str s) => if truthy s then Str (s ++ js "1") else Num 1
  | None =>
      match inherited k with
      | Some text => Str (text ++ js "1")
      | None => Num 1
      end
  end.

Fixpoint update (o : object) (k : jsstring) (v : value) : object :=
  match o with
  | [] => [(k, v)]
  | (k', v') :: o' =>
      if str_eqb k k' then (k', v) :: o' else (k', v') :: update o' k v
  end.

(** [o[k] = v]: the setter of [__proto__] ignores a primitive value; any
    other key becomes (or stays) an own property. *)
Definition set (o : object) (k : jsstring) (v : value) : object :=
  if str_eqb k (js "__proto__") then o else update o k v.

(** Array indices: canonical decimal numerals up to 2^32 - 2. *)
Definition digit (c : code_unit) : option N :=
  if (N.leb 48 c && N.leb c 57)%bool then Some (c - 48)%N else None.

Fixpoint numeral (acc : N) (s : jsstring) : option N :=
  match s with
  | [] => Some acc
  | c :: s' =>
      match digit c with
      | Some d => numeral (acc * 10 + d) s'
      | None => None
      end
  end.

Definition array_index (k : jsstring) : option N :=
  match k with
  | [] => None
  | c :: rest =>
      if (N.eqb c 48 && truthy rest)%bool then None
      else match numeral 0 k with
           | Some n => if N.leb n 4294967294 then Some n else None
           | None => None
           end
  end.

Fixpoint insert_index (x : N * jsstring) (l : list (N * jsstring))
  : list (N * jsstring) :=
  match l with
  | [] => [x]
  | y :: l' => if N.leb (fst x) (fst y) then x :: l else y :: insert_index x l'
  end.

Definition ascending (l : list (N * jsstring)) : list (N * jsstring) :=
  fold_right insert_index [] l.

Definition indexed (ks : list jsstring) : list (N * jsstring) :=
  flat_map (fun k => match array_index k with
                     | Some n => [(n, k)]
                     | None => []
                     end) ks.

Definition named (ks : list jsstring) : list jsstring :=
  filter (fun k => match array_index k with Some _ => false | None => true end) ks.

(** Property order: array indices in ascending numeric order, then the
    other keys in creation order. *)
Definition property_order (ks : list jsstring) : list jsstring :=
  map snd (ascending (indexed ks)) ++ named ks.

(** [Object.keys(o)]. *)
Definition keys (o : object) : list jsstring :=
  property_order (map fst o).

(** [o[a] > o[b]] for own keys: two numbers compare numerically, two
    strings by code units; a string held by the tally carries the text of
    an inherited member, converts to NaN, and a comparison with NaN is
    false. *)
Fixpoint str_ltb (a b : jsstring) : bool :=
  match a, b with
  | _, [] => false
  | [], _ :: _ => true
  | x :: a', y :: b' => N.ltb x y || (N.eqb x y && str_ltb a' b')
  end.

Definition gt (a b : option value) : bool :=
  match a, b with
  | Some (Num x), Some (Num y) => y <? x
  | Some (Str x), Some (Str y) => str_ltb y x
  | _, _ => false
  end.

End Obj.

(** ** The data the components exchange *)

Module Types.

(** One entry of [status.files] (simple-git's FileStatusResult). *)
Record FileStatusResult := {
  path : jsstring;
  index : jsstring;
  working_dir : jsstring
}.

Record RenamedFile := { from : jsstring; to : jsstring }.

(** simple-git's StatusResult, with the fields this program reads and
    [not_added], the list untracked files are reported in. *)
Module Status.
Record t := {
  files : list FileStatusResult;
  not_added : list jsstring;
  staged : list jsstring;
  modified : list jsstring;
  created : list jsstring;
  deleted : list jsstring;
  renamed : list RenamedFile;
  current : jsstring
}.
End Status.

(** The object [getChangedFiles] returns. *)
Module Changes.
Record t := {
  staged : list jsstring;
  modified : list jsstring;
  created : list jsstring;
  deleted : list jsstring;
  renamed : list RenamedFile
}.
End Changes.

Inductive change_type := Feat | Fix | Docs | Style | Refactor | Test | Chore.

Definition type_name (t : change_type) : jsstring :=
  match t with
  | Feat => js "feat"
  | Fix => js "fix"
  | Docs => js "docs"
  | Style => js "style"
  | Refactor => js "refactor"
  | Test => js "test"
  | Chore => js "chore"
  end.

Record Stats := {
  additions : nat;
  deletions : nat;
  filesChanged : nat
}.

Module Analysis.
Record t := {
  type : change_type;
  scope : jsstring;
  files : list jsstring;
  stats : Stats
}.
End Analysis.

(** One entry of [git log], as [getRecentCommits] returns it. *)
Record Commit := {
  hash : jsstring;
  commit_message : jsstring;
  date : jsstring
}.

End Types.

Import Types.

(** ** Configuration values *)

Module Value.

(** A field of the configuration object read from JSON: any JSON value,
    or [undefined] when the field is absent.  Numbers are binary64. *)
Inductive t :=
| VUndefined
| VNull
| VBool (b : bool)
| VNumber (x : spec_float)
| VString (s : jsstring).

(** ToBoolean: [undefined], [null], [false], [+0], [-0], [NaN] and the
    empty string are falsy. *)
Definition truthy (v : t) : bool :=
  match v with
  | VUndefined | VNull => false
  | VBool b => b
  | VNumber (S754_zero _) | VNumber S754_nan => false
  | VNumber _ => true
  | VString s => JS.truthy s
  end.

(** [a || b]. *)
Definition orElse (a b : t) : t := if truthy a then a else b.

(** [v === 'literal']. *)
Definition equals (v : t) (literal : jsstring) : bool :=
  match v with
  | VString s => str_eqb s literal
  | _ => false
  end.

(** The literals [0.3] and [100] as binary64 numbers. *)
Definition n0_3 : t := VNumber (S754_finite false 5404319552844595 (-54)).
Definition n100 : t := VNumber (S754_finite false 7036874417766400 (-46)).

End Value.

Module Config.

(** The configuration object handed to [AICommitGenerator]. *)
Record t := {
  aiProvider : Value.t;
  openaiApiKey : Value.t;
  dashscopeApiKey : Value.t;
  model : Value.t;
  language : Value.t;
  style : Value.t;
  maxTokens : Value.t;
  temperature : Value.t
}.

End Config.

(** [process.env], the two variables the generators fall back to. *)
Record Env := {
  OPENAI_API_KEY : Value.t;
  DASHSCOPE_API_KEY : Value.t
}.

(** ** What is sent to and received from a provider *)

Module Provider.

Inductive Language := Chinese | English.

(** The prompts are templates over these parts; their fixed wording is
    not reproduced. *)
Record SystemPrompt := {
  sys_language : Language;
  sys_conventional : bool
}.

Record UserPrompt := {
  p_stats : Stats;
  p_files : list jsstring;
  p_type : jsstring;
  p_scope : option jsstring;        (* [None]: the word for "none" *)
  p_history : list jsstring;
  p_diff : jsstring;
  p_language : Language;
  p_conventional : bool
}.

(** The body and header of [axios.post(baseURL, ...)]. *)
Record DashScopeRequest := {
  d_url : jsstring;
  d_bearer : Value.t;
  d_model : Value.t;
  d_system : SystemPrompt;
  d_user : UserPrompt;
  d_max_tokens : Value.t;
  d_temperature : Value.t;
  d_result_format : jsstring
}.

(** The argument of [openai.chat.completions.create], with the key the
    client was built with. *)
Record ChatRequest := {
  c_apiKey : Value.t;
  c_model : Value.t;
  c_system : SystemPrompt;
  c_user : UserPrompt;
  c_max_tokens : Value.t;
  c_temperature : Value.t
}.

(** A reply: the message contents of its choices, or [None] when the
    reply lacks the [choices] structure. *)
Record Reply := { choices : option (list jsstring) }.

End Provider.

(** ** Asynchronous methods: state, exceptions, promises *)

Module Error.

(** [error.response.data], the body of an HTTP failure, as far as the
    handlers read it: [null], [undefined], or a value with its [message]
    property ([None] when the value has none). *)
Inductive Body :=
| BodyNull
| BodyUndefined
| BodyValue (message : option jsstring).

(** The part of an HTTP failure the handlers read. *)
Record Response := {
  data : Body;
  statusText : jsstring
}.

(** A thrown error. *)
Record t := {
  message : jsstring;
  code : option jsstring;
  response : option Response
}.

(** [new Error(message)]. *)
Definition new (message : jsstring) : t :=
  {| message := message; code := None; response := None |}.

End Error.

Module Effect.

(** An awaited computation: it runs in a world and either throws or
    returns. *)
Definition M (W A : Type) : Type := W -> (Error.t + A) * W.

(** A pending request: its promise settles at some time with an error or
    a value. *)
Definition Async (W A : Type) : Type := W -> (nat * (Error.t + A)) * W.

(** What the program prints or shows. *)
Inductive Ui :=
| NotARepository
| NoChanges
| SpinnerStart
| SpinnerText
| SpinnerSucceed
| Failed (message : jsstring).

(** The outside world: simple-git, the two provider clients and the
    terminal. *)
Class Host (W : Type) := {
  git_status : M W Status.t;
  git_diff_staged : M W jsstring;
  git_diff : M W jsstring;
  git_log : nat -> M W (list Commit);
  axios_post : Provider.DashScopeRequest -> Async W Provider.Reply;
  chat_completions_create : Provider.ChatRequest -> Async W Provider.Reply;
  show : Ui -> W -> W
}.

Section Monad.

Context {W : Type}.

Definition ret {A} (a : A) : M W A := fun w => (inr a, w).

Definition throw {A} (e : Error.t) : M W A := fun w => (inl e, w).

Definition bind {A B} (m : M W A) (k : A -> M W B) : M W B :=
  fun w =>
    match m w with
    | (inr a, w') => k a w'
    | (inl e, w') => (inl e, w')
    end.

(** [try { body } catch (error) { handler }]. *)
Definition try_catch {A} (body : M W A) (handler : Error.t -> M W A) : M W A :=
  fun w =>
    match body w with
    | (inr a, w') => (inr a, w')
    | (inl e, w') => handler e w'
    end.

(** [await promise]. *)
Definition await {A} (p : Async W A) : M W A :=
  fun w => let '((_, outcome), w') := p w in (outcome, w').

(** What follows the [await] inside an async function: the function's
    own promise settles when the awaited one does. *)
Definition after {A B} (p : Async W A) (k : Error.t + A -> Error.t + B)
  : Async W B :=
  fun w => let '((time, outcome), w') := p w in ((time, k outcome), w').

(** [Array(count).fill().map(() => call())]: the calls are started one
    after the other. *)
Fixpoint launch {A} (count : nat) (call : Async W A)
  : W -> list (nat * (Error.t + A)) * W :=
  fun w =>
    match count with
    | 0 => ([], w)
    | S n =>
        let '(promise, w1) := call w in
        let '(promises, w2) := launch n call w1 in
        (promise :: promises, w2)
    end.

Definition tell (silent : bool) (u : Ui) `{Host W} : M W unit :=
  fun w => (inr tt, if silent then w else show u w).

End Monad.

(** [Promise.all]: rejected with the reason of the promise that is
    rejected first, fulfilled with all values in call order. *)
Fixpoint earliest_rejection {A} (promises : list (nat * (Error.t + A)))
  : option (nat * Error.t) :=
  match promises with
  | [] => None
  | (time, inl e) :: rest =>
      match earliest_rejection rest with
      | Some (time', e') =>
          if time' <? time then Some (time', e') else Some (time, e)
      | None => Some (time, e)
      end
  | (_, inr _) :: rest => earliest_rejection rest
  end.

Fixpoint values {A} (promises : list (nat * (Error.t + A))) : list A :=
  match promises with
  | [] => []
  | (_, inr a) :: rest => a :: values rest
  | (_, inl _) :: rest => values rest
  end.

Definition Promise_all {A} (promises : list (nat * (Error.t + A)))
  : Error.t + list A :=
  match earliest_rejection promises with
  | Some (_, e) => inl e
  | None => inr (values promises)
  end.

End Effect.

Import Effect.

Notation "x <- m ;; k" := (bind m (fun x => k))
  (at level 61, m at next level, right associativity).
Notation "m ;;; k" := (bind m (fun _ => k))
  (at level 61, right associativity).

(** ** GitAnalyzer: the classification in [analyzeChanges] *)

Module GitAnalyzer.

(** [analysis.files = [...new Set(allChangedFiles)]]. *)
Definition changedFiles (changes : Changes.t) : list jsstring :=
  let allChangedFiles :=
    Changes.staged changes ++ Changes.modified changes ++
    Changes.created changes ++ Changes.deleted changes in
  Set_of allChangedFiles.

(** The statistics read off the diff. *)
Definition diffStats (diff : jsstring) (filesChanged : nat) : Stats :=
  if truthy diff then
    let lines := split NL diff in
    {| additions := length (filter (fun line => startsWith line (js "+")) lines);
       deletions := length (filter (fun line => startsWith line (js "-")) lines);
       filesChanged := filesChanged |}
  else {| additions := 0; deletions := 0; filesChanged := filesChanged |}.

(** The cascade that decides the change type. *)
Definition inferType (changes : Changes.t) (files : list jsstring) : change_type :=
  if 0 <? length (Changes.created changes) then Feat
  else if 0 <? length (Changes.deleted changes) then Feat
  else if existsb (fun file => includes file (js "test")) files then Test
  else if existsb (fun file => includes file (js "doc")
                               || includes file (js "README")) files then Docs
  else if existsb (fun file => includes file (js "config")
                               || includes file (js "package.json")) files then Chore
  else Feat.

(** The scope: first path segments are tallied in [scopeCounts] and the
    keys are reduced with [(a, b) => scopeCounts[a] > scopeCounts[b] ? a : b]. *)
Definition commonPaths (files : list jsstring) : list jsstring :=
  map (fun file =>
         let parts := split SLASH file in
         if 1 <? length parts then hd [] parts else []) files.

Definition countScope (scopeCounts : Obj.object) (scope : jsstring) : Obj.object :=
  if truthy scope
  then Obj.set scopeCounts scope (Obj.incremented scopeCounts scope)
  else scopeCounts.

Definition tally (paths : list jsstring) : Obj.object :=
  fold_left countScope paths Obj.empty.

Definition reduce (f : jsstring -> jsstring -> jsstring)
           (first : jsstring) (others : list jsstring) : jsstring :=
  fold_left f others first.

Definition inferScope (files : list jsstring) : jsstring :=
  let scopeCounts := tally (commonPaths files) in
  match Obj.keys scopeCounts with
  | [] => []
  | first :: others =>
      reduce (fun a b =>
                if Obj.gt (Obj.own scopeCounts a) (Obj.own scopeCounts b)
                then a else b)
             first others
  end.

(** The analysis computed from the changed files and the diff. *)
Definition analyze (changes : Changes.t) (diff : jsstring) : Analysis.t :=
  let files := changedFiles changes in
  {| Analysis.type := inferType changes files;
     Analysis.scope := inferScope files;
     Analysis.files := files;
     Analysis.stats := diffStats diff (length files) |}.

(** The prefixes put before the message of a failed git call. *)
Definition staged_diff_failed : jsstring :=       (* 获取暂存区差异失败:  *)
  [33719; 21462; 26242; 23384; 21306; 24046; 24322; 22833; 36133; 58; 32]%N.
Definition working_diff_failed : jsstring :=      (* 获取工作区差异失败:  *)
  [33719; 21462; 24037; 20316; 21306; 24046; 24322; 22833; 36133; 58; 32]%N.
Definition file_status_failed : jsstring :=       (* 获取文件状态失败:  *)
  [33719; 21462; 25991; 20214; 29366; 24577; 22833; 36133; 58; 32]%N.
Definition history_failed : jsstring :=           (* 获取提交历史失败:  *)
  [33719; 21462; 25552; 20132; 21382; 21490; 22833; 36133; 58; 32]%N.
Definition diff_failed : jsstring :=              (* 获取diff失败:  *)
  [33719; 21462; 100; 105; 102; 102; 22833; 36133; 58; 32]%N.

Section Methods.

Context {W : Type} `{Host W}.

(** [throw new Error(`prefix${error.message}`)]. *)
Definition rethrow {A} (prefix : jsstring) (error : Error.t) : M W A :=
  throw (Error.new (prefix ++ Error.message error)).

Definition getStagedDiff : M W jsstring :=
  try_catch git_diff_staged (rethrow staged_diff_failed).

Definition getWorkingDiff : M W jsstring :=
  try_catch git_diff (rethrow working_diff_failed).

Definition getChangedFiles : M W Changes.t :=
  try_catch
    (status <- git_status ;;
     ret {| Changes.staged := Status.staged status;
            Changes.modified := Status.modified status;
            Changes.created := Status.created status;
            Changes.deleted := Status.deleted status;
            Changes.renamed := Status.renamed status |})
    (rethrow file_status_failed).

Definition getRecentCommits (count : nat) : M W (list Commit) :=
  try_catch (git_log count) (rethrow history_failed).

Definition analyzeChanges : M W Analysis.t :=
  changes <- getChangedFiles ;;
  stagedDiff <- getStagedDiff ;;
  diff <- (if truthy stagedDiff then ret stagedDiff else getWorkingDiff) ;;
  ret (analyze changes diff).

Definition isGitRepo : M W bool :=
  try_catch (git_status ;;; ret true) (fun _ => ret false).

Definition hasChanges : M W bool :=
  try_catch
    (status <- git_status ;;
     ret (0 <? length (Status.files status)))
    (fun _ => ret false).

Definition getDiff : M W jsstring :=
  try_catch
    (stagedDiff <- getStagedDiff ;;
     if truthy stagedDiff && truthy (trim stagedDiff)
     then ret stagedDiff
     else getWorkingDiff)
    (rethrow diff_failed).

End Methods.

End GitAnalyzer.

(** ** Regular expressions *)

Module Regex.

Inductive re :=
| Void
| Eps
| Chr (c : code_unit)
| Dot
| Seq (r1 r2 : re)
| Alt (r1 r2 : re)
| Star (r : re).

(** [r?], [r+] and a literal text. *)
Definition Opt (r : re) : re := Alt r Eps.
Definition Plus (r : re) : re := Seq r (Star r).

Fixpoint Lit (s : jsstring) : re :=
  match s with
  | [] => Eps
  | c :: s' => Seq (Chr c) (Lit s')
  end.

(** The strings a pattern matches; [.] stands for any code unit that is
    not a line terminator. *)
Inductive Matches : re -> jsstring -> Prop :=
| MEps : Matches Eps []
| MChr c : Matches (Chr c) [c]
| MDot c : is_line_terminator c = false -> Matches Dot [c]
| MSeq r1 r2 s1 s2 :
    Matches r1 s1 -> Matches r2 s2 -> Matches (Seq r1 r2) (s1 ++ s2)
| MAltL r1 r2 s : Matches r1 s -> Matches (Alt r1 r2) s
| MAltR r1 r2 s : Matches r2 s -> Matches (Alt r1 r2) s
| MStar0 r : Matches (Star r) []
| MStarS r s1 s2 :
    Matches r s1 -> Matches (Star r) s2 -> Matches (Star r) (s1 ++ s2).

Fixpoint nullable (r : re) : bool :=
  match r with
  | Void | Chr _ | Dot => false
  | Eps | Star _ => true
  | Seq r1 r2 => nullable r1 && nullable r2
  | Alt r1 r2 => nullable r1 || nullable r2
  end.

(** What is left of the pattern after reading [c]. *)
Fixpoint deriv (c : code_unit) (r : re) : re :=
  match r with
  | Void | Eps => Void
  | Chr c' => if N.eqb c c' then Eps else Void
  | Dot => if is_line_terminator c then Void else Eps
  | Seq r1 r2 =>
      if nullable r1
      then Alt (Seq (deriv c r1) r2) (deriv c r2)
      else Seq (deriv c r1) r2
  | Alt r1 r2 => Alt (deriv c r1) (deriv c r2)
  | Star r1 => Seq (deriv c r1) (Star r1)
  end.

(** [/^r/.test(s)]: the pattern is anchored at the start only, so the
    test succeeds when some prefix of [s] matches. *)
Fixpoint test (r : re) (s : jsstring) : bool :=
  nullable r ||
  match s with
  | [] => false
  | c :: s' => test (deriv c r) s'
  end.

End Regex.

(** ** What the two generators share *)

Module Generator.

(** The marker line appended to a cut diff. *)
Definition truncated_marker : jsstring := js "... (truncated)".

(** [truncateDiff(diff, maxLines = 50)], the same text in
    aiCommitGenerator.js and dashscopeGenerator.js. *)
Definition truncateDiff_upto (maxLines : nat) (diff : jsstring) : jsstring :=
  if negb (truthy diff) then []
  else
    let lines := split NL diff in
    if length lines <=? maxLines then diff
    else join [NL] (firstn maxLines lines) ++ NL :: truncated_marker.

Definition truncateDiff : jsstring -> jsstring := truncateDiff_upto 50.

(** [/^(feat|fix|docs|style|refactor|test|chore)(\(.+\))?: .+/]. *)
Definition conventionalPattern : Regex.re :=
  Regex.Seq
    (Regex.Alt (Regex.Lit (js "feat"))
    (Regex.Alt (Regex.Lit (js "fix"))
    (Regex.Alt (Regex.Lit (js "docs"))
    (Regex.Alt (Regex.Lit (js "style"))
    (Regex.Alt (Regex.Lit (js "refactor"))
    (Regex.Alt (Regex.Lit (js "test"))
               (Regex.Lit (js "chore"))))))))
    (Regex.Seq
       (Regex.Opt (Regex.Seq (Regex.Lit (js "("))
                  (Regex.Seq (Regex.Plus Regex.Dot) (Regex.Lit (js ")")))))
       (Regex.Seq (Regex.Lit (js ": ")) (Regex.Plus Regex.Dot))).

Definition isConventionalFormat (message : jsstring) : bool :=
  Regex.test conventionalPattern message.

(** [formatCommitMessage(message, analysis)]; [style] is
    [this.config.style] in one class and [this.options.style] in the
    other. *)
Definition formatCommitMessage
           (style : Value.t) (message : jsstring) (analysis : Analysis.t)
  : jsstring :=
  if isConventionalFormat message then message
  else if Value.equals style (js "conventional") then
    let scope :=
      if truthy (Analysis.scope analysis)
      then js "(" ++ Analysis.scope analysis ++ js ")"
      else [] in
    type_name (Analysis.type analysis) ++ scope ++ js ": " ++ message
  else message.

Definition language_of (language : Value.t) : Provider.Language :=
  if Value.equals language (js "zh-CN")
  then Provider.Chinese else Provider.English.

Definition systemPrompt (language style : Value.t) : Provider.SystemPrompt :=
  {| Provider.sys_language := language_of language;
     Provider.sys_conventional := Value.equals style (js "conventional") |}.

Definition userPrompt (language style : Value.t)
           (diff : jsstring) (analysis : Analysis.t)
           (recentCommits : list Commit) : Provider.UserPrompt :=
  {| Provider.p_stats := Analysis.stats analysis;
     Provider.p_files := Analysis.files analysis;
     Provider.p_type := type_name (Analysis.type analysis);
     Provider.p_scope :=
       if truthy (Analysis.scope analysis)
       then Some (Analysis.scope analysis) else None;
     Provider.p_history := map commit_message recentCommits;
     Provider.p_diff := truncateDiff diff;
     Provider.p_language := language_of language;
     Provider.p_conventional := Value.equals style (js "conventional") |}.

Definition options_failed : jsstring :=   (* 生成多个提交信息选项失败:  *)
  [29983; 25104; 22810; 20010; 25552; 20132; 20449; 24687; 36873; 39033;
   22833; 36133; 58; 32]%N.

(** [Promise.all(promises)] followed by [[...new Set(results)]], inside
    the try block that rewraps a rejection. *)
Definition collect (promises : list (nat * (Error.t + jsstring)))
  : Error.t + list jsstring :=
  match Promise_all promises with
  | inr results => inr (Set_of results)
  | inl error => inl (Error.new (options_failed ++ Error.message error))
  end.

End Generator.

(** ** DashScopeGenerator *)

Module DashScopeGenerator.

Record Options := {
  model : Value.t;
  language : Value.t;
  style : Value.t;
  maxTokens : Value.t;
  temperature : Value.t
}.

Record t := {
  apiKey : Value.t;
  baseURL : jsstring;
  options : Options
}.

(** [constructor(apiKey, options)]. *)
Definition new (env : Env) (apiKey : Value.t) (options : Options) : t :=
  {| apiKey := Value.orElse apiKey (DASHSCOPE_API_KEY env);
     baseURL :=
       js "https://dashscope.aliyuncs.com/api/v1/services/aigc/text-generation/generation";
     options :=
       {| model := Value.orElse (model options) (Value.VString (js "qwen-turbo"));
          language := Value.orElse (language options) (Value.VString (js "zh-CN"));
          style := Value.orElse (style options) (Value.VString (js "conventional"));
          maxTokens := Value.orElse (maxTokens options) Value.n100;
          temperature := Value.orElse (temperature options) Value.n0_3 |} |}.

Definition getSystemPrompt (self : t) : Provider.SystemPrompt :=
  Generator.systemPrompt (language (options self)) (style (options self)).

Definition buildPrompt (self : t) (diff : jsstring) (analysis : Analysis.t)
           (recentCommits : list Commit) : Provider.UserPrompt :=
  Generator.userPrompt (language (options self)) (style (options self))
                       diff analysis recentCommits.

Definition formatCommitMessage (self : t) (message : jsstring)
           (analysis : Analysis.t) : jsstring :=
  Generator.formatCommitMessage (style (options self)) message analysis.

(** The request posted by [generateCommitMessage]. *)
Definition request (self : t) (diff : jsstring) (analysis : Analysis.t)
           (recentCommits : list Commit) : Provider.DashScopeRequest :=
  {| Provider.d_url := baseURL self;
     Provider.d_bearer := apiKey self;
     Provider.d_model := model (options self);
     Provider.d_system := getSystemPrompt self;
     Provider.d_user := buildPrompt self diff analysis recentCommits;
     Provider.d_max_tokens := maxTokens (options self);
     Provider.d_temperature := temperature (options self);
     Provider.d_result_format := js "message" |}.

Definition invalid_response_format : jsstring :=   (* 无效的API响应格式 *)
  [26080; 25928; 30340; 65; 80; 73; 21709; 24212; 26684; 24335]%N.
Definition dashscope_error : jsstring :=           (* 百炼API错误:  *)
  [30334; 28860; 65; 80; 73; 38169; 35823; 58; 32]%N.
Definition generation_failed : jsstring :=         (* AI生成提交信息失败:  *)
  [65; 73; 29983; 25104; 25552; 20132; 20449; 24687; 22833; 36133; 58; 32]%N.

(** The TypeError of reading [message] from a body that is [null] or
    [undefined]. *)
Definition no_body (value : jsstring) : Error.t :=
  Error.new (js "Cannot read properties of " ++ value
               ++ js " (reading 'message')").

(** The catch block of [generateCommitMessage]: the error it throws.
    Reading [error.response.data.message] throws itself when the response
    has no body, and that TypeError leaves the block as it is. *)
Definition caught (error : Error.t) : Error.t :=
  match Error.response error with
  | Some response =>
      match Error.data response with
      | Error.BodyNull => no_body (js "null")
      | Error.BodyUndefined => no_body (js "undefined")
      | Error.BodyValue message =>
          let detail :=
            match message with
            | Some m => if truthy m then m else Error.statusText response
            | None => Error.statusText response
            end in
          Error.new (dashscope_error ++ detail)
      end
  | None => Error.new (generation_failed ++ Error.message error)
  end.

(** What [generateCommitMessage] does once the reply is there. *)
Definition settle (self : t) (analysis : Analysis.t)
           (outcome : Error.t + Provider.Reply) : Error.t + jsstring :=
  match outcome with
  | inr reply =>
      match Provider.choices reply with
      | Some (content :: _) =>
          inr (formatCommitMessage self (trim content) analysis)
      | _ => inl (caught (Error.new invalid_response_format))
      end
  | inl error => inl (caught error)
  end.

Section Methods.

Context {W : Type} `{Host W}.

(** The promise one call of [generateCommitMessage] returns. *)
Definition generateCommitMessage_promise
           (self : t) (diff : jsstring) (analysis : Analysis.t)
           (recentCommits : list Commit) : Async W jsstring :=
  after (axios_post (request self diff analysis recentCommits))
        (settle self analysis).

Definition generateCommitMessage
           (self : t) (diff : jsstring) (analysis : Analysis.t)
           (recentCommits : list Commit) : M W jsstring :=
  await (generateCommitMessage_promise self diff analysis recentCommits).

Definition generateMultipleOptions
           (self : t) (diff : jsstring) (analysis : Analysis.t)
           (recentCommits : list Commit) (count : nat)
  : M W (list jsstring) :=
  fun w =>
    let '(promises, w') :=
      launch count
             (generateCommitMessage_promise self diff analysis recentCommits)
             w in
    (Generator.collect promises, w').

End Methods.

End DashScopeGenerator.

(** ** AICommitGenerator *)

Module AICommitGenerator.

(** The generator keeps its configuration; what [setupGenerator] builds
    from it (the DashScope generator or the OpenAI client) is a function
    of the configuration and the environment. *)
Record t := {
  config : Config.t;
  env : Env
}.

Definition dashscope (self : t) : bool :=
  Value.equals (Config.aiProvider (config self)) (js "dashscope").

(** [this.generator], as [setupGenerator] builds it. *)
Definition generator (self : t) : DashScopeGenerator.t :=
  let config := config self in
  DashScopeGenerator.new (env self) (Config.dashscopeApiKey config)
    {| DashScopeGenerator.model :=
         Value.orElse (Config.model config) (Value.VString (js "qwen-turbo"));
       DashScopeGenerator.language :=
         Value.orElse (Config.language config) (Value.VString (js "zh-CN"));
       DashScopeGenerator.style :=
         Value.orElse (Config.style config) (Value.VString (js "conventional"));
       DashScopeGenerator.maxTokens :=
         Value.orElse (Config.maxTokens config) Value.n100;
       DashScopeGenerator.temperature :=
         Value.orElse (Config.temperature config) Value.n0_3 |}.

(** The key [this.openai] is built with. *)
Definition openai_key (self : t) : Value.t :=
  Value.orElse (Config.openaiApiKey (config self)) (OPENAI_API_KEY (env self)).

Definition getOpenAISystemPrompt (self : t) : Provider.SystemPrompt :=
  Generator.systemPrompt (Config.language (config self))
                         (Config.style (config self)).

Definition buildOpenAIPrompt (self : t) (diff : jsstring)
           (analysis : Analysis.t) (recentCommits : list Commit)
  : Provider.UserPrompt :=
  Generator.userPrompt (Config.language (config self))
                       (Config.style (config self))
                       diff analysis recentCommits.

Definition formatCommitMessage (self : t) (message : jsstring)
           (analysis : Analysis.t) : jsstring :=
  Generator.formatCommitMessage (Config.style (config self)) message analysis.

(** The argument of [chat.completions.create] in [generateWithOpenAI]. *)
Definition request (self : t) (diff : jsstring) (analysis : Analysis.t)
           (recentCommits : list Commit) : Provider.ChatRequest :=
  {| Provider.c_apiKey := openai_key self;
     Provider.c_model :=
       Value.orElse (Config.model (config self))
                    (Value.VString (js "gpt-3.5-turbo"));
     Provider.c_system := getOpenAISystemPrompt self;
     Provider.c_user := buildOpenAIPrompt self diff analysis recentCommits;
     Provider.c_max_tokens :=
       Value.orElse (Config.maxTokens (config self)) Value.n100;
     Provider.c_temperature :=
       Value.orElse (Config.temperature (config self)) Value.n0_3 |}.

Definition invalid_openai_response : jsstring :=   (* 无效的OpenAI API响应 *)
  [26080; 25928; 30340; 79; 112; 101; 110; 65; 73; 32; 65; 80; 73; 21709;
   24212]%N.
Definition openai_quota : jsstring :=   (* OpenAI API配额不足，请检查账户余额 *)
  [79; 112; 101; 110; 65; 73; 32; 65; 80; 73; 37197; 39069; 19981; 36275;
   65292; 35831; 26816; 26597; 36134; 25143; 20313; 39069]%N.
Definition openai_invalid_key : jsstring :=        (* 无效的OpenAI API密钥 *)
  [26080; 25928; 30340; 79; 112; 101; 110; 65; 73; 32; 65; 80; 73; 23494;
   38053]%N.
Definition openai_error : jsstring :=              (* OpenAI API错误:  *)
  [79; 112; 101; 110; 65; 73; 32; 65; 80; 73; 38169; 35823; 58; 32]%N.

Definition code_is (error : Error.t) (literal : jsstring) : bool :=
  match Error.code error with
  | Some c => str_eqb c literal
  | None => false
  end.

(** The catch block of [generateWithOpenAI]. *)
Definition caught (error : Error.t) : Error.t :=
  if code_is error (js "insufficient_quota") then Error.new openai_quota
  else if code_is error (js "invalid_api_key") then Error.new openai_invalid_key
  else Error.new (openai_error ++ Error.message error).

Definition settle (self : t) (analysis : Analysis.t)
           (outcome : Error.t + Provider.Reply) : Error.t + jsstring :=
  match outcome with
  | inr reply =>
      match Provider.choices reply with
      | Some (content :: _) =>
          inr (formatCommitMessage self (trim content) analysis)
      | _ => inl (caught (Error.new invalid_openai_response))
      end
  | inl error => inl (caught error)
  end.

Section Methods.

Context {W : Type} `{Host W}.

Definition generateWithOpenAI_promise
           (self : t) (diff : jsstring) (analysis : Analysis.t)
           (recentCommits : list Commit) : Async W jsstring :=
  after (chat_completions_create (request self diff analysis recentCommits))
        (settle self analysis).

(** The promise one call of [generateCommitMessage] returns. *)
Definition generateCommitMessage_promise
           (self : t) (diff : jsstring) (analysis : Analysis.t)
           (recentCommits : list Commit) : Async W jsstring :=
  if dashscope self
  then DashScopeGenerator.generateCommitMessage_promise
         (generator self) diff analysis recentCommits
  else generateWithOpenAI_promise self diff analysis recentCommits.

Definition generateCommitMessage
           (self : t) (diff : jsstring) (analysis : Analysis.t)
           (recentCommits : list Commit) : M W jsstring :=
  await (generateCommitMessage_promise self diff analysis recentCommits).

Definition generateMultipleOptions
           (self : t) (diff : jsstring) (analysis : Analysis.t)
           (recentCommits : list Commit) (count : nat)
  : M W (list jsstring) :=
  if dashscope self
  then DashScopeGenerator.generateMultipleOptions
         (generator self) diff analysis recentCommits count
  else
    fun w =>
      let '(promises, w') :=
        launch count
               (generateWithOpenAI_promise self diff analysis recentCommits)
               w in
      (Generator.collect promises, w').

End Methods.

End AICommitGenerator.

(** ** GitAutoCommit: the two generation operations *)

Module GitAutoCommit.

Record t := {
  aiGenerator : option AICommitGenerator.t;    (* [null] before initializeAI *)
  silent : bool
}.

(** The TypeError of a method call on [null]. *)
Definition null_receiver (method : jsstring) : Error.t :=
  Error.new (js "Cannot read properties of null (reading '" ++ method ++ js "')").

Section Methods.

Context {W : Type} `{Host W}.

(** The try block of [generateCommitMessage]. *)
Definition attempt (self : t) : M W (option jsstring) :=
  repo <- GitAnalyzer.isGitRepo ;;
  if negb repo then
    tell (silent self) NotARepository ;;; ret None
  else
    hasChanges <- GitAnalyzer.hasChanges ;;
    if negb hasChanges then
      tell (silent self) NoChanges ;;; ret None
    else
      tell (silent self) SpinnerStart ;;;
      diff <- GitAnalyzer.getDiff ;;
      analysis <- GitAnalyzer.analyzeChanges ;;
      recentCommits <- GitAnalyzer.getRecentCommits 5 ;;
      tell (silent self) SpinnerText ;;;
      commitMessage <-
        match aiGenerator self with
        | Some generator =>
            AICommitGenerator.generateCommitMessage
              generator diff analysis recentCommits
        | None => throw (null_receiver (js "generateCommitMessage"))
        end ;;
      tell (silent self) SpinnerSucceed ;;;
      ret (Some commitMessage).

(** [generateCommitMessage()]; [None] is [null]. *)
Definition generateCommitMessage (self : t) : M W (option jsstring) :=
  try_catch (attempt self)
            (fun error =>
               tell (silent self) (Failed (Error.message error)) ;;;
               ret None).

(** [generateMultipleOptions(count = 3)]. *)
Definition generateMultipleOptions (self : t) (count : nat)
  : M W (list jsstring) :=
  try_catch
    (repo <- GitAnalyzer.isGitRepo ;;
     if negb repo then
       tell false NotARepository ;;; ret []
     else
       hasChanges <- GitAnalyzer.hasChanges ;;
       if negb hasChanges then
         tell false NoChanges ;;; ret []
       else
         tell false SpinnerStart ;;;
         diff <- GitAnalyzer.getDiff ;;
         analysis <- GitAnalyzer.analyzeChanges ;;
         recentCommits <- GitAnalyzer.getRecentCommits 5 ;;
         tell false SpinnerText ;;;
         options <-
           match aiGenerator self with
           | Some generator =>
               AICommitGenerator.generateMultipleOptions
                 generator diff analysis recentCommits count
           | None => throw (null_receiver (js "generateMultipleOptions"))
           end ;;
         tell false SpinnerSucceed ;;;
         ret options)
    (fun error => tell false (Failed (Error.message error)) ;;; ret []).

End Methods.

End GitAutoCommit.

(** ** A scripted world, for concrete runs *)

Module Mock.

(** What git answers, and what the provider answers to the first, the
    second, ... request. *)
Record Script := {
  status : Error.t + Status.t;
  staged_diff : Error.t + jsstring;
  working_diff : Error.t + jsstring;
  log : Error.t + list Commit;
  replies : list (nat * (Error.t + Provider.Reply))
}.

Definition no_reply : nat * (Error.t + Provider.Reply) :=
  (0, inl (Error.new (js "socket hang up"))).

(** The world is the number of requests sent so far. *)
Definition host (s : Script) : Host nat :=
  {| git_status := fun w => (status s, w);
     git_diff_staged := fun w => (staged_diff s, w);
     git_diff := fun w => (working_diff s, w);
     git_log := fun _ w => (log s, w);
     axios_post := fun _ w => (nth w (replies s) no_reply, S w);
     chat_completions_create := fun _ w => (nth w (replies s) no_reply, S w);
     show := fun _ w => w |}.

End Mock.


(** ** Concrete working copies, configurations and provider answers *)

Module Scenario.

(** A working copy whose only change is one untracked file: simple-git
    lists it in [files] and [not_added] and in no other list. *)
Definition untracked_only : Status.t :=
  {| Status.files :=
       [{| path := js "notes.txt"; index := js "?"; working_dir := js "?" |}];
     Status.not_added := [js "notes.txt"];
     Status.staged := [];
     Status.modified := [];
     Status.created := [];
     Status.deleted := [];
     Status.renamed := [];
     Status.current := js "main" |}.

(** A working copy with one modified, staged file. *)
Definition one_modified : Status.t :=
  {| Status.files :=
       [{| path := js "src/app.js"; index := js "M"; working_dir := js " " |}];
     Status.not_added := [];
     Status.staged := [js "src/app.js"];
     Status.modified := [js "src/app.js"];
     Status.created := [];
     Status.deleted := [];
     Status.renamed := [];
     Status.current := js "main" |}.

Definition small_diff : jsstring :=
  join [NL] [js "--- a/src/app.js"; js "+++ b/src/app.js"; js "-old"; js "+new"].

(** What [getChangedFiles] returns for [one_modified]. *)
Definition app_changes : Changes.t :=
  {| Changes.staged := [js "src/app.js"];
     Changes.modified := [js "src/app.js"];
     Changes.created := []; Changes.deleted := [];
     Changes.renamed := [] |}.

Definition app_analysis : Analysis.t :=
  GitAnalyzer.analyze app_changes small_diff.

(** A modified guide. *)
Definition guide_changes : Changes.t :=
  {| Changes.staged := []; Changes.modified := [js "docs/guide.md"];
     Changes.created := []; Changes.deleted := [];
     Changes.renamed := [] |}.

(** The lines of a diff with its two header lines. *)
Definition diff_lines : list jsstring :=
  [js "--- a/src/a.js"; js "+++ b/src/a.js"; js "@@ -1 +1,2 @@";
   js " keep"; js "-old"; js "+new"; js "+more"].

(** Paths in one and in several directories. *)
Definition two_directories : list jsstring := [js "a/x.js"; js "b/y.js"].

Definition five_paths : list jsstring :=
  [js "src/a.js"; js "README.md"; js "lib/b.js"; js "lib/c.js"; js "test/t.js"].

Definition conventional : Value.t := Value.VString (js "conventional").

Definition guide_analysis : Analysis.t :=
  {| Analysis.type := Docs; Analysis.scope := js "docs";
     Analysis.files := [js "docs/guide.md"];
     Analysis.stats := {| additions := 4; deletions := 1; filesChanged := 1 |} |}.

Definition plain_analysis : Analysis.t :=
  {| Analysis.type := Feat; Analysis.scope := [];
     Analysis.files := [js "a.js"];
     Analysis.stats := {| additions := 1; deletions := 0; filesChanged := 1 |} |}.

Definition no_env : Env :=
  {| OPENAI_API_KEY := Value.VUndefined; DASHSCOPE_API_KEY := Value.VUndefined |}.

Definition openai_config : Config.t :=
  {| Config.aiProvider := Value.VString (js "openai");
     Config.openaiApiKey := Value.VString (js "sk-test");
     Config.dashscopeApiKey := Value.VString [];
     Config.model := Value.VString (js "gpt-3.5-turbo");
     Config.language := Value.VString (js "en");
     Config.style := Value.VString (js "conventional");
     Config.maxTokens := Value.n100;
     Config.temperature := Value.n0_3 |}.

(** The same with the temperature set to exactly 0 and no token budget. *)
Definition zero_temperature_config : Config.t :=
  {| Config.aiProvider := Value.VString (js "dashscope");
     Config.openaiApiKey := Value.VString [];
     Config.dashscopeApiKey := Value.VString (js "sk-test");
     Config.model := Value.VString (js "qwen-turbo");
     Config.language := Value.VString (js "zh-CN");
     Config.style := Value.VString (js "conventional");
     Config.maxTokens := Value.VNumber (S754_zero false);
     Config.temperature := Value.VNumber (S754_zero false) |}.

Definition generator (config : Config.t) : AICommitGenerator.t :=
  {| AICommitGenerator.config := config; AICommitGenerator.env := no_env |}.

Definition orchestrator : GitAutoCommit.t :=
  {| GitAutoCommit.aiGenerator := Some (generator openai_config);
     GitAutoCommit.silent := true |}.

Definition answer (content : jsstring) : Error.t + Provider.Reply :=
  inr {| Provider.choices := Some [content] |}.

Definition quota_exceeded : Error.t :=
  {| Error.message := js "You exceeded your current quota";
     Error.code := Some (js "insufficient_quota");
     Error.response := None |}.


Definition repository (status : Status.t)
           (replies : list (nat * (Error.t + Provider.Reply))) : Mock.Script :=
  {| Mock.status := inr status;
     Mock.staged_diff := inr small_diff;
     Mock.working_diff := inr [];
     Mock.log := inr [];
     Mock.replies := replies |}.

(** A directory that is not a repository: every git call fails. *)
Definition outside_repository : Mock.Script :=
  {| Mock.status := inl (Error.new (js "fatal: not a git repository"));
     Mock.staged_diff := inl (Error.new (js "fatal: not a git repository"));
     Mock.working_diff := inl (Error.new (js "fatal: not a git repository"));
     Mock.log := inl (Error.new (js "fatal: not a git repository"));
     Mock.replies := [] |}.

(** The provider rejects the request. *)
Definition provider_down : Mock.Script :=
  repository one_modified [(1, inl quota_exceeded)].

(** Three different answers that normalise to the same message. *)
Definition three_spellings : Mock.Script :=
  repository one_modified
    [(1, answer (js "update app")); (2, answer (js "feat(src): update app"));
     (3, answer (js "update app "))].

(** Three answers that stay different. *)
Definition three_messages : Mock.Script :=
  repository one_modified
    [(3, answer (js "update app")); (1, answer (js "fix: typo"));
     (2, answer (js "tidy"))].

(** Only an untracked file, no diff. *)
Definition untracked_repository : Mock.Script :=
  {| Mock.status := inr untracked_only;
     Mock.staged_diff := inr [];
     Mock.working_diff := inr [];
     Mock.log := inr [];
     Mock.replies := [] |}.

End Scenario.

(** ** Notions the statements are written with *)

Module Spec.

(** A string without the given code unit (a line, a path segment). *)
Definition free_of (sep : code_unit) (l : jsstring) : Prop := ~ In sep l.

Definition free_ofb (sep : code_unit) (l : jsstring) : bool :=
  negb (existsb (N.eqb sep) l).

(** [needle] occurs somewhere in [s]. *)
Definition contains (needle s : jsstring) : Prop :=
  exists before after, s = before ++ needle ++ after.

(** The line begins with the code unit [c]. *)
Definition begins (c : code_unit) (line : jsstring) : bool :=
  match line with
  | x :: _ => N.eqb x c
  | [] => false
  end.

(** How many of the lines begin with [c]. *)
Fixpoint count_beginning (c : code_unit) (lines : list jsstring) : nat :=
  match lines with
  | [] => 0
  | l :: rest => (if begins c l then 1 else 0) + count_beginning c rest
  end.

Definition PLUS : code_unit := 43%N.
Definition MINUS : code_unit := 45%N.

(** Some changed path (staged, modified, created or deleted) contains
    [needle]. *)
Definition some_path (changes : Changes.t) (needle : jsstring) : Prop :=
  exists file,
    In file (Changes.staged changes ++
             Changes.modified changes ++
             Changes.created changes ++
             Changes.deleted changes)
    /\ contains needle file.

(** The first segment of a path that has a directory separator. *)
Fixpoint first_segment (p : jsstring) : option jsstring :=
  match p with
  | [] => None
  | c :: p' =>
      if N.eqb c SLASH then Some []
      else option_map (cons c) (first_segment p')
  end.

(** The scope candidates of the changed paths, in path order: the
    non-empty first segments. *)
Definition candidates (files : list jsstring) : list jsstring :=
  flat_map (fun file =>
              match first_segment file with
              | Some seg => if truthy seg then [seg] else []
              | None => []
              end) files.

(** How often [k] occurs among the candidates. *)
Definition occurrences (k : jsstring) (cands : list jsstring) : nat :=
  length (filter (str_eqb k) cands).

(** A key that names no member inherited from [Object.prototype]. *)
Definition ordinary (k : jsstring) : bool :=
  match Obj.inherited k with
  | Some _ => false
  | None => true
  end.

(** The key order of the scope-count mapping: the distinct candidates in
    order of first encounter, except that array indices come first, in
    ascending numeric order. *)
Definition key_order (cands : list jsstring) : list jsstring :=
  Obj.property_order (Set_of cands).

(** The scope as the specification words it: every first segment of a
    path with a separator is a candidate, the most frequent one is
    picked, and among equally frequent ones the first encountered. *)
Definition claimed_candidates (files : list jsstring) : list jsstring :=
  flat_map (fun file =>
              match first_segment file with
              | Some seg => [seg]
              | None => []
              end) files.

Definition claimed_scope (files : list jsstring) : jsstring :=
  let cands := claimed_candidates files in
  match Set_of cands with
  | [] => []
  | first :: others =>
      fold_left (fun best c =>
                   if occurrences best cands <? occurrences c cands
                   then c else best)
                others first
  end.

(** A code unit that [.] matches. *)
Definition visible (c : code_unit) : bool := negb (is_line_terminator c).

Definition starts_visible (x : jsstring) : bool :=
  match x with
  | c :: _ => visible c
  | [] => false
  end.

(** The conventional-commit shape: one of the seven type tags, an
    optional parenthesised non-empty scope on one line, a colon and a
    space, and at least one more character on the same line. *)
Definition conventional_shape (x : jsstring) : Prop :=
  exists (t : change_type) (scope_part description : jsstring),
    x = type_name t ++ scope_part ++ js ": " ++ description /\
    starts_visible description = true /\
    (scope_part = [] \/
     exists inner, inner <> [] /\ forallb visible inner = true /\
                   scope_part = js "(" ++ inner ++ js ")").

(** The token budget and the temperature in the request a generator
    sends to its provider. *)
Definition sent (self : AICommitGenerator.t) (diff : jsstring)
           (analysis : Analysis.t) (recentCommits : list Commit)
  : Value.t * Value.t :=
  if AICommitGenerator.dashscope self then
    let r := DashScopeGenerator.request (AICommitGenerator.generator self)
                                        diff analysis recentCommits in
    (Provider.d_max_tokens r, Provider.d_temperature r)
  else
    let r := AICommitGenerator.request self diff analysis recentCommits in
    (Provider.c_max_tokens r, Provider.c_temperature r).

End Spec.

Import Spec.

(** ** Configuration objects and ConfigManager *)

Module Props.

(** A configuration object: its own enumerable properties.  The values
    are the scalars of [Value.t]; a field that holds an array or an object
    is not represented. *)
Definition t := list (jsstring * Value.t).

Fixpoint own (o : t) (k : jsstring) : option Value.t :=
  match o with
  | [] => None
  | (k', v) :: o' => if str_eqb k k' then Some v else own o' k
  end.

(** [o.k]: [undefined] when the object has no such property. *)
Definition get (o : t) (k : jsstring) : Value.t :=
  match own o k with
  | Some v => v
  | None => Value.VUndefined
  end.

(** Defining one property: an existing key keeps its place. *)
Fixpoint put (o : t) (k : jsstring) (v : Value.t) : t :=
  match o with
  | [] => [(k, v)]
  | (k', v') :: o' =>
      if str_eqb k k' then (k', v) :: o' else (k', v') :: put o' k v
  end.

(** [{ ...base, ...extra }].  The list is in creation order; the order
    in which JavaScript enumerates the properties is [keys]. *)
Definition spread (base extra : t) : t :=
  fold_left (fun o kv => put o (fst kv) (snd kv)) extra base.

(** [Object.keys(o)]: array-index keys first, in ascending order, then the
    others in creation order. *)
Definition keys (o : t) : list jsstring :=
  Obj.property_order (map fst o).

(** An object holds each key once. *)
Fixpoint well_formed (o : t) : bool :=
  match o with
  | [] => true
  | (k, _) :: o' => negb (existsb (str_eqb k) (map fst o')) && well_formed o'
  end.

End Props.

Module ConfigManager.

(** [this.defaultConfig]. *)
Definition defaultConfig : Props.t :=
  [(js "aiProvider", Value.VString (js "dashscope"));
   (js "openaiApiKey", Value.VString []);
   (js "dashscopeApiKey",
    Value.VString (js "sk-17aad991a26a444d96bbbe5953559187"));
   (js "model", Value.VString (js "qwen-turbo"));
   (js "language", Value.VString (js "zh-CN"));
   (js "style", Value.VString (js "conventional"));
   (js "maxTokens", Value.n100);
   (js "temperature", Value.n0_3)].

Definition save_failed : jsstring :=          (* 保存配置失败:  *)
  [20445; 23384; 37197; 32622; 22833; 36133; 58; 32]%N.

(** The file system as ConfigManager uses it: [fs.access] and [fs.mkdir]
    on the configuration directory; reading the configuration file and
    parsing it as JSON, which gives the own properties of the parsed
    value or fails; writing the file with the object as JSON. *)
Class Files (W : Type) := {
  fs_access : M W unit;
  fs_mkdir : M W unit;
  read_json : M W Props.t;
  write_json : Props.t -> M W unit
}.

Section Methods.

Context {W : Type} `{Files W}.

Definition ensureConfigDir : M W unit :=
  try_catch fs_access (fun _ => fs_mkdir).

Definition getConfig : M W Props.t :=
  try_catch
    (ensureConfigDir ;;;
     config <- read_json ;;
     ret (Props.spread defaultConfig config))
    (fun _ => ret (Props.spread defaultConfig [])).

Definition saveConfig (config : Props.t) : M W Props.t :=
  try_catch
    (ensureConfigDir ;;;
     currentConfig <- getConfig ;;
     write_json (Props.spread currentConfig config) ;;;
     ret (Props.spread currentConfig config))
    (fun error => throw (Error.new (save_failed ++ Error.message error))).

Definition setAiProvider (provider : Value.t) : M W Props.t :=
  saveConfig [(js "aiProvider", provider)].

Definition setOpenAiApiKey (apiKey : Value.t) : M W Props.t :=
  saveConfig [(js "openaiApiKey", apiKey)].

Definition setDashScopeApiKey (apiKey : Value.t) : M W Props.t :=
  saveConfig [(js "dashscopeApiKey", apiKey)].

Definition setModel (model : Value.t) : M W Props.t :=
  saveConfig [(js "model", model)].

Definition setLanguage (language : Value.t) : M W Props.t :=
  saveConfig [(js "language", language)].

Definition setStyle (style : Value.t) : M W Props.t :=
  saveConfig [(js "style", style)].


Definition isConfigured : M W bool :=
  config <- getConfig ;;
  if Value.equals (Props.get config (js "aiProvider")) (js "openai")
  then ret (Value.truthy (Props.get config (js "openaiApiKey")))
  else if Value.equals (Props.get config (js "aiProvider")) (js "dashscope")
  then ret (Value.truthy (Props.get config (js "dashscopeApiKey")))
  else ret false.

End Methods.

(** [new AICommitGenerator(config)], as [initializeAI] builds it from the
    object [getConfig] returned: the generator reads these properties. *)
Definition generator_for (env : Env) (config : Props.t) : AICommitGenerator.t :=
  {| AICommitGenerator.config :=
       {| Config.aiProvider := Props.get config (js "aiProvider");
          Config.openaiApiKey := Props.get config (js "openaiApiKey");
          Config.dashscopeApiKey := Props.get config (js "dashscopeApiKey");
          Config.model := Props.get config (js "model");
          Config.language := Props.get config (js "language");
          Config.style := Props.get config (js "style");
          Config.maxTokens := Props.get config (js "maxTokens");
          Config.temperature := Props.get config (js "temperature") |};
     AICommitGenerator.env := env |}.

(** A scripted file system: whether the directory can be reached, and what
    reading the file gives; writes succeed and are not kept. *)
Definition files (directory : Error.t + unit) (content : Error.t + Props.t)
  : Files unit :=
  {| fs_access := fun w => (directory, w);
     fs_mkdir := fun w => (directory, w);
     read_json := fun w => (content, w);
     write_json := fun _ w => (inr tt, w) |}.

End ConfigManager.

(** ** Further notions and concrete inputs *)

Module Notions.

(** The four lists the change set is built from, one after the other. *)
Definition listed (changes : Changes.t) : list jsstring :=
  Changes.staged changes ++ Changes.modified changes ++
  Changes.created changes ++ Changes.deleted changes.

(** A text with something other than white space in it. *)
Definition non_blank (s : jsstring) : bool := truthy (trim s).

(** The keys of the default configuration. *)
Definition default_keys : list jsstring := map fst ConfigManager.defaultConfig.

(** A thrown error that carries nothing but a message. *)
Definition bare (e : Error.t) : Prop :=
  Error.code e = None /\ Error.response e = None.

(** A promise that was rejected. *)
Definition rejected {A} (outcome : Error.t + A) : bool :=
  match outcome with
  | inl _ => true
  | inr _ => false
  end.

(** A configuration file that names OpenAI and a key, and nothing else. *)
Definition openai_file : Props.t :=
  [(js "aiProvider", Value.VString (js "openai"));
   (js "openaiApiKey", Value.VString (js "sk-test"))].

Definition missing_file : Error.t :=
  {| Error.message := js "ENOENT: no such file or directory";
     Error.code := Some (js "ENOENT");
     Error.response := None |}.

(** A configuration without language and style. *)
Definition bare_config (provider : jsstring) : Config.t :=
  {| Config.aiProvider := Value.VString provider;
     Config.openaiApiKey := Value.VString (js "sk-test");
     Config.dashscopeApiKey := Value.VString (js "sk-test");
     Config.model := Value.VUndefined;
     Config.language := Value.VUndefined;
     Config.style := Value.VUndefined;
     Config.maxTokens := Value.VUndefined;
     Config.temperature := Value.VUndefined |}.

(** A staged diff that is only a line break, and a working diff. *)
Definition blank_staged : Mock.Script :=
  {| Mock.status := inr Scenario.one_modified;
     Mock.staged_diff := inr [NL];
     Mock.working_diff := inr Scenario.small_diff;
     Mock.log := inr [];
     Mock.replies := [] |}.

End Notions.

Import Notions.

(* ====================================================================== *)
(** * Part II: properties *)
(* ====================================================================== *)

(** ** Strings *)

Section StringFacts.

Lemma str_eqb_eq (a b : jsstring) : str_eqb a b = true <-> a = b.
Proof.
  revert b; induction a as [|x a IH]; intros [|y b]; simpl;
    try (split; [discriminate | discriminate]); try tauto.
  rewrite andb_true_iff, N.eqb_eq, IH.
  split; [intros [-> ->]; reflexivity | intros E; inversion E; auto].
Qed.

Lemma str_eqb_refl (a : jsstring) : str_eqb a a = true.
Proof. apply str_eqb_eq; reflexivity. Qed.

Lemma str_eqb_neq (a b : jsstring) : str_eqb a b = false <-> a <> b.
Proof.
  rewrite <- str_eqb_eq. destruct (str_eqb a b); split; congruence.
Qed.

Variable sep : code_unit.

Lemma split_not_nil (s : jsstring) : split sep s <> [].
Proof.
  destruct s as [|c s]; simpl; [discriminate|].
  destruct (N.eqb c sep); [discriminate|].
  destruct (split sep s); discriminate.
Qed.

Lemma split_free (l : jsstring) : free_of sep l -> split sep l = [l].
Proof.
  induction l as [|c l IH]; intros F; simpl; [reflexivity|].
  destruct (N.eqb_spec c sep) as [->|_].
  - exfalso; apply F; left; reflexivity.
  - rewrite IH; [reflexivity|]. intros I; apply F; right; exact I.
Qed.

Lemma split_app_sep (l rest : jsstring) :
  free_of sep l -> split sep (l ++ sep :: rest) = l :: split sep rest.
Proof.
  induction l as [|c l IH]; intros F; simpl.
  - rewrite N.eqb_refl; reflexivity.
  - destruct (N.eqb_spec c sep) as [->|_].
    + exfalso; apply F; left; reflexivity.
    + rewrite IH; [reflexivity|]. intros I; apply F; right; exact I.
Qed.

Lemma split_pieces_free (s : jsstring) : Forall (free_of sep) (split sep s).
Proof.
  induction s as [|c s IH]; simpl.
  - constructor; [intros []|constructor].
  - destruct (N.eqb_spec c sep) as [->|N].
    + constructor; [intros []|exact IH].
    + destruct (split sep s) as [|l ls]; [repeat constructor; intros [E|[]]; congruence|].
      inversion IH as [|? ? Fl Fls]; subst.
      constructor; [|exact Fls].
      intros [E|I]; [congruence|exact (Fl I)].
Qed.

(** Splitting what was joined gives the pieces back. *)
Lemma split_join_then (ls : list jsstring) (tail : jsstring) :
  ls <> [] -> Forall (free_of sep) ls ->
  split sep (join [sep] ls ++ sep :: tail) = ls ++ split sep tail.
Proof.
  induction ls as [|l ls IH]; intros NE F; [congruence|].
  inversion F as [|? ? Fl Fls]; subst.
  destruct ls as [|l' ls].
  - simpl. apply split_app_sep; exact Fl.
  - change (join [sep] (l :: l' :: ls))
      with (l ++ [sep] ++ join [sep] (l' :: ls)).
    replace ((l ++ [sep] ++ join [sep] (l' :: ls)) ++ sep :: tail)
      with (l ++ sep :: (join [sep] (l' :: ls) ++ sep :: tail))
      by (rewrite <- app_assoc; reflexivity).
    rewrite split_app_sep by exact Fl.
    rewrite IH by (congruence || assumption). reflexivity.
Qed.

Lemma split_join (ls : list jsstring) :
  ls <> [] -> Forall (free_of sep) ls -> split sep (join [sep] ls) = ls.
Proof.
  induction ls as [|l ls IH]; intros NE F; [congruence|].
  inversion F as [|? ? Fl Fls]; subst.
  destruct ls as [|l' ls].
  - simpl. apply split_free; exact Fl.
  - change (join [sep] (l :: l' :: ls))
      with (l ++ sep :: join [sep] (l' :: ls)).
    rewrite split_app_sep by exact Fl.
    rewrite IH by (congruence || assumption). reflexivity.
Qed.

(** Joining what was split gives the text back. *)
Lemma join_split (s : jsstring) : join [sep] (split sep s) = s.
Proof.
  induction s as [|c s IH]; simpl; [reflexivity|].
  destruct (N.eqb_spec c sep) as [->|_].
  - pose proof (split_not_nil s) as NE.
    destruct (split sep s) as [|l ls]; [congruence|].
    simpl in *. rewrite IH. reflexivity.
  - pose proof (split_not_nil s) as NE.
    destruct (split sep s) as [|l ls]; [congruence|].
    destruct ls as [|l' ls]; simpl in *; rewrite <- IH; reflexivity.
Qed.


Lemma free_ofb_spec (l : jsstring) : free_ofb sep l = true <-> free_of sep l.
Proof.
  unfold free_ofb, free_of. rewrite negb_true_iff. split.
  - intros E I. assert (X : existsb (N.eqb sep) l = true).
    { apply existsb_exists. exists sep. split; [exact I|apply N.eqb_refl]. }
    congruence.
  - intros NI. destruct (existsb (N.eqb sep) l) eqn:E; [|reflexivity].
    apply existsb_exists in E. destruct E as [x [I E]].
    apply N.eqb_eq in E. subst x. contradiction.
Qed.

Lemma forallb_free (ls : list jsstring) :
  forallb (free_ofb sep) ls = true -> Forall (free_of sep) ls.
Proof.
  intros F. apply Forall_forall. intros l I.
  apply free_ofb_spec. rewrite forallb_forall in F. apply F; exact I.
Qed.

End StringFacts.

Lemma startsWith_app (p rest : jsstring) : startsWith (p ++ rest) p = true.
Proof.
  induction p as [|a p IH]; simpl; [destruct rest; reflexivity|].
  rewrite N.eqb_refl. exact IH.
Qed.

Lemma startsWith_spec (s p : jsstring) :
  startsWith s p = true <-> exists rest, s = p ++ rest.
Proof.
  split.
  - revert s; induction p as [|a p IH]; intros s E.
    + exists s; reflexivity.
    + destruct s as [|b s]; simpl in E; [discriminate|].
      apply andb_true_iff in E. destruct E as [E1 E2].
      apply N.eqb_eq in E1. subst b.
      destruct (IH _ E2) as [rest ->]. exists rest; reflexivity.
  - intros [rest ->]. apply startsWith_app.
Qed.

Lemma includes_spec (s p : jsstring) :
  includes s p = true <-> contains p s.
Proof.
  unfold contains. split.
  - induction s as [|c s IH]; intros E.
    + destruct p; simpl in E; [exists [], []; reflexivity|discriminate].
    + change (includes (c :: s) p)
        with (startsWith (c :: s) p || includes s p) in E.
      apply orb_true_iff in E. destruct E as [E|E].
      * apply startsWith_spec in E. destruct E as [rest E].
        exists [], rest. exact E.
      * destruct (IH E) as [before [after ->]].
        exists (c :: before), after. reflexivity.
  - intros [before [after ->]].
    induction before as [|c before IH].
    + simpl app. assert (S : startsWith (p ++ after) p = true)
        by apply startsWith_app.
      destruct (p ++ after); simpl; [rewrite orb_false_r|]; simpl in S;
        rewrite S; reflexivity.
    + change (includes ((c :: before) ++ p ++ after) p)
        with (startsWith ((c :: before) ++ p ++ after) p
              || includes (before ++ p ++ after) p).
      rewrite IH. apply orb_true_r.
Qed.

Lemma startsWith_one (c : code_unit) (line : jsstring) :
  startsWith line [c] = begins c line.
Proof.
  destruct line as [|x line]; simpl; [reflexivity|].
  destruct line; apply andb_true_r.
Qed.

(** ** Sets *)

Lemma Set_has_spec (x : jsstring) (members : list jsstring) :
  Set_has x members = true <-> In x members.
Proof.
  unfold Set_has. rewrite existsb_exists. split.
  - intros [y [I E]]. apply str_eqb_eq in E. subst y. exact I.
  - intros I. exists x. split; [exact I|apply str_eqb_refl].
Qed.

Lemma Set_add_In (members : list jsstring) (x y : jsstring) :
  In y (Set_add members x) <-> In y members \/ y = x.
Proof.
  unfold Set_add. destruct (Set_has x members) eqn:H.
  - apply Set_has_spec in H. split; [auto|]. intros [I| ->]; assumption.
  - rewrite in_app_iff. simpl. intuition congruence.
Qed.

Lemma fold_Set_add_In (xs acc : list jsstring) (y : jsstring) :
  In y (fold_left Set_add xs acc) <-> In y acc \/ In y xs.
Proof.
  revert acc; induction xs as [|x xs IH]; intros acc; simpl.
  - tauto.
  - rewrite IH, Set_add_In. intuition congruence.
Qed.

Lemma Set_of_In (xs : list jsstring) (y : jsstring) :
  In y (Set_of xs) <-> In y xs.
Proof. unfold Set_of. rewrite fold_Set_add_In. simpl. tauto. Qed.

Lemma Set_add_NoDup (members : list jsstring) (x : jsstring) :
  NoDup members -> NoDup (Set_add members x).
Proof.
  intros ND. unfold Set_add. destruct (Set_has x members) eqn:H; [exact ND|].
  assert (NI : ~ In x members).
  { intros I. apply Set_has_spec in I. congruence. }
  apply NoDup_app; [exact ND|repeat constructor; intros []|].
  intros y I [<-|[]]. contradiction.
Qed.

Lemma Set_of_NoDup (xs : list jsstring) : NoDup (Set_of xs).
Proof.
  unfold Set_of. assert (G : forall acc, NoDup acc -> NoDup (fold_left Set_add xs acc)).
  { induction xs as [|x xs IH]; intros acc ND; simpl; [exact ND|].
    apply IH. apply Set_add_NoDup. exact ND. }
  apply G. constructor.
Qed.

(** ** Diff truncation *)

Import Generator.

Lemma Forall_firstn {A} (P : A -> Prop) (n : nat) (l : list A) :
  Forall P l -> Forall P (firstn n l).
Proof.
  revert l; induction n as [|n IH]; intros [|x l] F; simpl; try constructor.
  - inversion F; assumption.
  - apply IH; inversion F; assumption.
Qed.

(** C5. A diff of at most 50 lines is returned as it is; a diff of more
    than 50 lines is cut to its first 50 lines followed by the marker line
    [... (truncated)], so the result has exactly 51 lines and the 51st is
    the marker. *)
Theorem truncateDiff_lines (diff : jsstring) :
  (length (split NL diff) <= 50 -> truncateDiff diff = diff) /\
  (50 < length (split NL diff) ->
     length (split NL (truncateDiff diff)) = 51 /\
     nth_error (split NL (truncateDiff diff)) 50 = Some (js "... (truncated)") /\
     firstn 50 (split NL (truncateDiff diff)) = firstn 50 (split NL diff)).
Proof.
  unfold truncateDiff, truncateDiff_upto. split; intros L.
  - destruct diff as [|c d]; [reflexivity|]. simpl truthy. simpl negb.
    cbv iota. apply Nat.leb_le in L. cbv zeta. rewrite L. reflexivity.
  - destruct diff as [|c d]; [simpl in L; lia|].
    simpl truthy. simpl negb. cbv iota zeta.
    assert (L' : (length (split NL (c :: d)) <=? 50) = false)
      by (apply Nat.leb_gt; exact L).
    rewrite L'.
    set (lines := split NL (c :: d)) in *.
    assert (NE : firstn 50 lines <> []).
    { destruct lines; simpl in *; [lia|discriminate]. }
    assert (F : Forall (free_of NL) (firstn 50 lines)).
    { apply Forall_firstn. apply split_pieces_free. }
    rewrite (split_join_then truncated_marker NE F).
    assert (M : split NL truncated_marker = [truncated_marker])
      by (vm_compute; reflexivity).
    rewrite M.
    assert (Len : length (firstn 50 lines) = 50)
      by (rewrite length_firstn; lia).
    repeat split.
    + rewrite length_app, Len. reflexivity.
    + rewrite nth_error_app2 by lia. rewrite Len. reflexivity.
    + rewrite firstn_app, Len, Nat.sub_diag, firstn_O, app_nil_r.
      rewrite firstn_firstn, Nat.min_id. reflexivity.
Qed.

Lemma truncateDiff_lines_witness :
  truncateDiff (js "index 83db48f..bf269f4") = js "index 83db48f..bf269f4" /\
  length (split NL (truncateDiff (join [NL] (repeat (js "+x") 60)))) = 51.
Proof.
  split.
  - apply (proj1 (truncateDiff_lines (js "index 83db48f..bf269f4"))).
    vm_compute. lia.
  - apply (proj2 (truncateDiff_lines (join [NL] (repeat (js "+x") 60)))).
    vm_compute. lia.
Defined.

(** ** Change statistics *)

Import GitAnalyzer.

Lemma count_filter_startsWith (c : code_unit) (lines : list jsstring) :
  length (filter (fun line => startsWith line [c]) lines) = count_beginning c lines.
Proof.
  induction lines as [|l lines IH]; simpl; [reflexivity|].
  rewrite startsWith_one. destruct (begins c l); simpl; rewrite IH; reflexivity.
Qed.

(** C6. For a diff text made of the lines [lines], [additions] is the
    number of lines that begin with [+] and [deletions] the number of lines
    that begin with [-]; the [+++] and [---] header lines are counted like
    any other line. *)
Theorem diffStats_counts
        (changes : Changes.t) (lines : list jsstring) :
  lines <> [] ->
  forallb (free_ofb NL) lines = true ->
  let analysis := analyze changes (join [NL] lines) in
  additions (Analysis.stats analysis) = count_beginning PLUS lines /\
  deletions (Analysis.stats analysis) = count_beginning MINUS lines.
Proof.
  intros NE F analysis. apply forallb_free in F.
  pose proof (split_join NE F) as SJ.
  unfold analysis, analyze, diffStats. cbn [Analysis.stats].
  destruct (join [NL] lines) as [|c d] eqn:J.
  - simpl in SJ. subst lines. simpl. split; reflexivity.
  - cbn [truthy additions deletions]. rewrite SJ.
    split; apply count_filter_startsWith.
Qed.

Lemma diffStats_counts_witness :
  additions (Analysis.stats
               (analyze Scenario.app_changes (join [NL] Scenario.diff_lines))) = 3 /\
  deletions (Analysis.stats
               (analyze Scenario.app_changes (join [NL] Scenario.diff_lines))) = 2.
Proof.
  apply (@diffStats_counts Scenario.app_changes Scenario.diff_lines).
  - discriminate.
  - reflexivity.
Defined.

(** ** Type inference *)

Lemma some_includes (changes : Changes.t) (needle : jsstring) :
  existsb (fun file => includes file needle) (changedFiles changes) = true
  <-> some_path changes needle.
Proof.
  unfold some_path, changedFiles. rewrite existsb_exists.
  split; intros [file [I E]]; exists file.
  - rewrite Set_of_In in I. rewrite includes_spec in E. split; assumption.
  - split; [apply Set_of_In; exact I|apply includes_spec; exact E].
Qed.

Lemma some_includes2 (changes : Changes.t) (n1 n2 : jsstring) :
  existsb (fun file => includes file n1 || includes file n2)
          (changedFiles changes) = true
  <-> some_path changes n1 \/ some_path changes n2.
Proof.
  rewrite <- !some_includes, !existsb_exists. split.
  - intros [file [I E]]. apply orb_true_iff in E.
    destruct E as [E|E]; [left|right]; exists file; auto.
  - intros [[file [I E]]|[file [I E]]]; exists file; rewrite E;
      auto using orb_true_r.
Qed.

(** C7. The change type is decided by the first rule that applies: a
    created file gives [feat]; otherwise a deleted file gives [feat];
    otherwise a path containing "test" gives [test]; otherwise a path
    containing "doc" or "README" gives [docs]; otherwise a path containing
    "config" or "package.json" gives [chore]; otherwise [feat]. *)
Theorem inferType_priority (changes : Changes.t) (diff : jsstring) :
  let type := Analysis.type (analyze changes diff) in
  let named := some_path changes in
  (Changes.created changes <> [] -> type = Feat) /\
  (Changes.created changes = [] -> Changes.deleted changes <> [] -> type = Feat) /\
  (Changes.created changes = [] -> Changes.deleted changes = [] ->
   named (js "test") -> type = Test) /\
  (Changes.created changes = [] -> Changes.deleted changes = [] ->
   ~ named (js "test") ->
   named (js "doc") \/ named (js "README") -> type = Docs) /\
  (Changes.created changes = [] -> Changes.deleted changes = [] ->
   ~ named (js "test") ->
   ~ (named (js "doc") \/ named (js "README")) ->
   named (js "config") \/ named (js "package.json") -> type = Chore) /\
  (Changes.created changes = [] -> Changes.deleted changes = [] ->
   ~ named (js "test") ->
   ~ (named (js "doc") \/ named (js "README")) ->
   ~ (named (js "config") \/ named (js "package.json")) -> type = Feat).
Proof.
  intros type named. unfold type, named, analyze, inferType.
  cbn [Analysis.type].
  rewrite <- (some_includes changes (js "test")).
  rewrite <- (some_includes2 changes (js "doc") (js "README")).
  rewrite <- (some_includes2 changes (js "config") (js "package.json")).
  destruct (Changes.created changes) as [|c cs];
    [|repeat split; intros; try reflexivity; congruence].
  destruct (Changes.deleted changes) as [|d ds];
    [|repeat split; intros; try reflexivity; congruence].
  cbn [length Nat.ltb Nat.leb].
  destruct (existsb (fun file => includes file (js "test")) _);
    [repeat split; intros; try reflexivity; congruence|].
  destruct (existsb (fun file => includes file (js "doc") || _) _);
    [repeat split; intros; try reflexivity; try congruence; tauto|].
  destruct (existsb (fun file => includes file (js "config") || _) _);
    repeat split; intros; try reflexivity; try congruence; tauto.
Qed.

Lemma inferType_priority_witness :
  Analysis.type (analyze Scenario.guide_changes []) = Docs.
Proof.
  apply (inferType_priority Scenario.guide_changes []); try reflexivity.
  - intros [file [[E|[]] [before [after C]]]]. subst file.
    assert (X : includes (js "docs/guide.md") (js "test") = true)
      by (apply includes_spec; exists before, after; exact C).
    vm_compute in X. discriminate.
  - left. exists (js "docs/guide.md"). split; [left; reflexivity|].
    exists [], (js "s/guide.md"). reflexivity.
Defined.

(** ** Scope inference *)

Lemma first_segment_split (p : jsstring) :
  match first_segment p with
  | Some seg => exists r rs, split SLASH p = seg :: r :: rs
  | None => split SLASH p = [p]
  end.
Proof.
  induction p as [|c p IH]; simpl; [reflexivity|].
  destruct (N.eqb c SLASH) eqn:E.
  - pose proof (split_not_nil SLASH p) as NE.
    destruct (split SLASH p) as [|r rs]; [congruence|].
    exists r, rs. reflexivity.
  - destruct (first_segment p) as [seg|]; simpl.
    + destruct IH as [r [rs ->]]. exists r, rs. reflexivity.
    + rewrite IH. reflexivity.
Qed.

(** What [first_segment] computes: the text before the first separator. *)
Lemma first_segment_spec (p seg : jsstring) :
  first_segment p = Some seg <->
  free_of SLASH seg /\ exists rest, p = seg ++ SLASH :: rest.
Proof.
  split.
  - revert seg; induction p as [|c p IH]; intros seg E; simpl in E;
      [discriminate|].
    destruct (N.eqb_spec c SLASH) as [->|NE].
    + inversion E; subst. split; [intros []|]. exists p. reflexivity.
    + destruct (first_segment p) as [seg'|]; simpl in E; [|discriminate].
      inversion E; subst. destruct (IH seg' eq_refl) as [F [rest ->]].
      split; [|exists rest; reflexivity].
      intros [X|X]; [congruence|exact (F X)].
  - intros [F [rest ->]]. induction seg as [|c seg IH]; simpl.
    + reflexivity.
    + destruct (N.eqb_spec c SLASH) as [->|NE].
      * exfalso. apply F. left. reflexivity.
      * rewrite IH; [reflexivity|]. intros X. apply F. right. exact X.
Qed.

Lemma tally_candidates (files : list jsstring) :
  tally (commonPaths files) = tally (candidates files).
Proof.
  unfold tally. generalize Obj.empty.
  induction files as [|f files IH]; intros o; [reflexivity|].
  unfold candidates. simpl flat_map. rewrite fold_left_app.
  fold (candidates files). rewrite <- IH. simpl commonPaths. simpl fold_left.
  f_equal. pose proof (first_segment_split f) as S.
  destruct (first_segment f) as [seg|].
  - destruct S as [r [rs ->]]. simpl.
    unfold countScope. destruct (truthy seg) eqn:T; simpl; rewrite ?T; reflexivity.
  - rewrite S. reflexivity.
Qed.

Lemma candidates_truthy (files : list jsstring) :
  Forall (fun k => truthy k = true) (candidates files).
Proof.
  unfold candidates. apply Forall_flat_map. apply Forall_forall. intros f _.
  destruct (first_segment f) as [seg|]; [|constructor].
  destruct (truthy seg) eqn:T; repeat constructor. exact T.
Qed.

Lemma own_update (o : Obj.object) (k k' : jsstring) (v : Obj.value) :
  Obj.own (Obj.update o k v) k' = if str_eqb k' k then Some v else Obj.own o k'.
Proof.
  induction o as [|[k0 v0] o IH]; simpl.
  - reflexivity.
  - destruct (str_eqb k k0) eqn:E; simpl.
    + apply str_eqb_eq in E. subst k0.
      destruct (str_eqb k' k); reflexivity.
    + rewrite IH. destruct (str_eqb k' k0) eqn:E0; [|reflexivity].
      apply str_eqb_eq in E0. subst k0.
      destruct (str_eqb k' k) eqn:E1; [|reflexivity].
      apply str_eqb_eq in E1. subst k'. rewrite str_eqb_refl in E. discriminate.
Qed.

Lemma keys_update (o : Obj.object) (k : jsstring) (v : Obj.value) :
  map fst (Obj.update o k v) =
  match Obj.own o k with
  | Some _ => map fst o
  | None => map fst o ++ [k]
  end.
Proof.
  induction o as [|[k0 v0] o IH]; simpl; [reflexivity|].
  destruct (str_eqb k k0) eqn:E; simpl; [reflexivity|].
  rewrite IH. destruct (Obj.own o k); reflexivity.
Qed.

Lemma Set_has_Set_of (x : jsstring) (l : list jsstring) :
  Set_has x (Set_of l) = Set_has x l.
Proof.
  destruct (Set_has x l) eqn:E.
  - apply Set_has_spec. apply Set_of_In. apply Set_has_spec. exact E.
  - destruct (Set_has x (Set_of l)) eqn:E'; [|reflexivity].
    apply Set_has_spec in E'. rewrite Set_of_In in E'.
    apply Set_has_spec in E'. congruence.
Qed.

Lemma Set_of_snoc (l : list jsstring) (x : jsstring) :
  Set_of (l ++ [x]) = Set_add (Set_of l) x.
Proof. unfold Set_of. rewrite fold_left_app. reflexivity. Qed.

Lemma occurrences_absent (x : jsstring) (l : list jsstring) :
  Set_has x l = false -> occurrences x l = 0.
Proof.
  unfold occurrences, Set_has. induction l as [|y l IH]; simpl; [reflexivity|].
  intros E. apply orb_false_iff in E. destruct E as [E1 E2].
  rewrite E1. apply IH. exact E2.
Qed.

Lemma occurrences_snoc (k x : jsstring) (l : list jsstring) :
  occurrences k (l ++ [x]) = occurrences k l + (if str_eqb k x then 1 else 0).
Proof.
  unfold occurrences. rewrite filter_app, length_app. simpl.
  destruct (str_eqb k x); reflexivity.
Qed.

Lemma ordinary_not_proto (k : jsstring) :
  ordinary k = true -> str_eqb k (js "__proto__") = false.
Proof.
  unfold ordinary, Obj.inherited. intros O.
  destruct (str_eqb k (js "constructor")); [discriminate|].
  destruct (str_eqb k (js "__proto__")); [discriminate|reflexivity].
Qed.

(** After the tally the object holds, for every candidate, the number of
    its occurrences, and its own keys were created in the order the
    candidates were first met. *)
Lemma tally_counts (l : list jsstring) :
  Forall (fun k => truthy k = true) l ->
  forallb ordinary l = true ->
  map fst (tally l) = Set_of l /\
  forall k, Obj.own (tally l) k =
            if Set_has k l then Some (Obj.Num (occurrences k l)) else None.
Proof.
  induction l as [|x l IH] using rev_ind; intros T O.
  - split; [reflexivity|]. intros k. reflexivity.
  - apply Forall_app in T. destruct T as [T Tx].
    rewrite forallb_app in O. apply andb_true_iff in O. destruct O as [O Ox].
    simpl in Ox. rewrite andb_true_r in Ox.
    inversion Tx as [|? ? Tx' _]; subst.
    destruct (IH T O) as [K V]. clear IH.
    assert (St : tally (l ++ [x]) =
                 Obj.update (tally l) x (Obj.incremented (tally l) x)).
    { unfold tally. rewrite fold_left_app. simpl. unfold countScope at 1.
      rewrite Tx'.
      unfold Obj.set. rewrite (ordinary_not_proto _ Ox). reflexivity. }
    rewrite St. split.
    + rewrite keys_update, Set_of_snoc, K, V. unfold Set_add.
      rewrite Set_has_Set_of. destruct (Set_has x l); reflexivity.
    + intros k. rewrite own_update, occurrences_snoc.
      unfold Set_has in *. rewrite existsb_app. simpl. rewrite orb_false_r.
      destruct (str_eqb k x) eqn:E.
      * apply str_eqb_eq in E. subst k. rewrite orb_true_r.
        unfold Obj.incremented. rewrite V.
        destruct (existsb (str_eqb x) l) eqn:H; [reflexivity|].
        apply occurrences_absent in H. rewrite H.
        unfold ordinary in Ox. destruct (Obj.inherited x); [discriminate|].
        reflexivity.
      * rewrite orb_false_r, Nat.add_0_r. apply V.
Qed.

Lemma insert_index_In (x y : N * jsstring) (l : list (N * jsstring)) :
  In y (Obj.insert_index x l) <-> y = x \/ In y l.
Proof.
  induction l as [|z l IH]; simpl.
  - intuition congruence.
  - destruct (N.leb (fst x) (fst z)); simpl; [intuition congruence|].
    rewrite IH. intuition congruence.
Qed.

Lemma ascending_In (y : N * jsstring) (l : list (N * jsstring)) :
  In y (Obj.ascending l) <-> In y l.
Proof.
  induction l as [|x l IH]; simpl; [tauto|].
  rewrite insert_index_In, IH. intuition congruence.
Qed.

Lemma property_order_In (k : jsstring) (ks : list jsstring) :
  In k (Obj.property_order ks) <-> In k ks.
Proof.
  unfold Obj.property_order, Obj.indexed, Obj.named.
  rewrite in_app_iff, in_map_iff, filter_In. split.
  - intros [[[n k'] [E I]]|[I _]]; [|exact I].
    simpl in E. subst k'. rewrite ascending_In in I.
    rewrite in_flat_map in I. destruct I as [k0 [I0 I]].
    destruct (Obj.array_index k0); [|destruct I].
    destruct I as [E|[]]. inversion E; subst. exact I0.
  - intros I. destruct (Obj.array_index k) as [n|] eqn:A; [left|right; auto].
    exists (n, k). split; [reflexivity|].
    apply ascending_In. apply in_flat_map. exists k.
    split; [exact I|]. rewrite A. left. reflexivity.
Qed.

(** The reduction keeps the key with the largest count and, among keys with
    the same count, the one met last. *)
Lemma reduce_last_max (o : Obj.object) (cnt : jsstring -> nat)
      (others pre : list jsstring) (a : jsstring) (mid : list jsstring) :
  (forall k, In k (a :: others) -> Obj.own o k = Some (Obj.Num (cnt k))) ->
  (forall k, In k pre -> cnt k <= cnt a) ->
  (forall k, In k mid -> cnt k < cnt a) ->
  let r := reduce (fun a b =>
                     if Obj.gt (Obj.own o a) (Obj.own o b) then a else b)
                  a others in
  exists before after,
    pre ++ a :: mid ++ others = before ++ r :: after /\
    (forall k, In k before -> cnt k <= cnt r) /\
    (forall k, In k after -> cnt k < cnt r).
Proof.
  revert pre a mid. unfold reduce.
  induction others as [|b others IH]; intros pre a mid V P M; simpl.
  - exists pre, mid. rewrite app_nil_r. auto.
  - rewrite (V a) by (left; reflexivity).
    rewrite (V b) by (right; left; reflexivity). simpl Obj.gt.
    destruct (Nat.ltb_spec (cnt b) (cnt a)) as [L|L].
    + destruct (IH pre a (mid ++ [b])) as [before [after [E [B A]]]].
      * intros k [<-|I]; apply V; [left|right; right]; auto.
      * exact P.
      * intros k I. apply in_app_iff in I. destruct I as [I|[<-|[]]]; auto.
      * exists before, after. rewrite <- E, <- app_assoc. auto.
    + destruct (IH (pre ++ a :: mid) b []) as [before [after [E [B A]]]].
      * intros k [<-|I]; apply V; right; [left|right]; auto.
      * intros k I. apply in_app_iff in I. destruct I as [I|[<-|I]].
        -- specialize (P k I). lia.
        -- exact L.
        -- specialize (M k I). lia.
      * intros k [].
      * exists before, after. rewrite <- E, <- app_assoc. auto.
Qed.

(** C1 (amended). The scope is the most frequent candidate, where the
    candidates are the non-empty first segments of the paths that contain
    a directory separator.  Among equally frequent candidates the one that
    comes last in the key order of the scope-count mapping wins, not the
    first.  Without a candidate the scope is the empty string.  (Stated for
    candidates that do not name a member inherited from Object.prototype.) *)
Theorem inferScope_most_frequent_last (files : list jsstring) :
  let cands := candidates files in
  let scope := inferScope files in
  forallb ordinary cands = true ->
  (cands = [] -> scope = []) /\
  (cands <> [] ->
     exists before after,
       key_order cands = before ++ scope :: after /\
       (forall k, In k before -> occurrences k cands <= occurrences scope cands) /\
       (forall k, In k after -> occurrences k cands < occurrences scope cands)).
Proof.
  intros cands scope O.
  destruct (tally_counts (candidates_truthy files) O) as [K V].
  fold cands in K, V.
  unfold scope, inferScope. rewrite tally_candidates. fold cands.
  unfold Obj.keys. rewrite K. fold (key_order cands).
  assert (Mem : forall k, In k (key_order cands) -> Set_has k cands = true).
  { intros k I. apply Set_has_spec. apply Set_of_In.
    apply property_order_In. exact I. }
  split.
  - intros ->. reflexivity.
  - intros NE. destruct (key_order cands) as [|first others] eqn:KO.
    + exfalso. destruct cands as [|c cs]; [congruence|].
      assert (I : In c (key_order (c :: cs))).
      { apply property_order_In. apply Set_of_In. left. reflexivity. }
      rewrite KO in I. destruct I.
    + assert (Vk : forall k, In k (first :: others) ->
                     Obj.own (tally cands) k =
                     Some (Obj.Num (occurrences k cands))).
      { intros k I. rewrite V, (Mem k I). reflexivity. }
      destruct (@reduce_last_max (tally cands) (fun k => occurrences k cands)
                  others [] first [] Vk) as [before [after [E [B A]]]].
      * intros k [].
      * intros k [].
      * exists before, after. simpl in E. rewrite E. auto.
Qed.

Lemma inferScope_most_frequent_last_witness :
  exists before after,
    key_order (candidates Scenario.five_paths)
    = before ++ inferScope Scenario.five_paths :: after /\
    (forall k, In k before ->
       occurrences k (candidates Scenario.five_paths)
       <= occurrences (inferScope Scenario.five_paths)
                      (candidates Scenario.five_paths)) /\
    (forall k, In k after ->
       occurrences k (candidates Scenario.five_paths)
       < occurrences (inferScope Scenario.five_paths)
                     (candidates Scenario.five_paths)).
Proof.
  apply (proj2 (inferScope_most_frequent_last Scenario.five_paths eq_refl)).
  discriminate.
Defined.

(** C1 as stated fails: two candidates met once each tie, and the code
    returns the later one where the claim promises the first. *)
Lemma inferScope_tie_not_first :
  inferScope Scenario.two_directories = js "b" /\
  claimed_scope Scenario.two_directories = js "a" /\
  inferScope Scenario.two_directories <> claimed_scope Scenario.two_directories.
Proof.
  repeat split; try reflexivity.
  vm_compute. discriminate.
Qed.

(** ** Regular expressions: the test decides the language *)

Import Regex.

Lemma nullable_spec (r : re) : nullable r = true <-> Matches r [].
Proof.
  induction r; simpl.
  - split; [discriminate|intros M; inversion M].
  - split; [constructor|reflexivity].
  - split; [discriminate|intros M; inversion M].
  - split; [discriminate|intros M; inversion M].
  - rewrite andb_true_iff, IHr1, IHr2. split.
    + intros [M1 M2]. exact (MSeq M1 M2).
    + intros M. inversion M; subst.
      match goal with
      | E : _ ++ _ = [] |- _ => apply app_eq_nil in E; destruct E; subst
      end. auto.
  - rewrite orb_true_iff, IHr1, IHr2. split.
    + intros [M|M]; [apply MAltL|apply MAltR]; exact M.
    + intros M. inversion M; subst; auto.
  - split; [constructor|reflexivity].
Qed.

Lemma deriv_complete (r : re) (s' : jsstring) :
  Matches r s' -> forall c s, s' = c :: s -> Matches (deriv c r) s.
Proof.
  induction 1 as [|c0|c0 V|r1 r2 s1 s2 M1 IH1 M2 IH2|r1 r2 s0 M IH
                  |r1 r2 s0 M IH| |r0 s1 s2 M1 IH1 M2 IH2];
    intros c s E; simpl.
  - discriminate.
  - inversion E; subst. rewrite N.eqb_refl. constructor.
  - inversion E; subst. rewrite V. constructor.
  - destruct s1 as [|c1 s1]; simpl in E.
    + subst s2. apply nullable_spec in M1. rewrite M1.
      apply MAltR. apply IH2. reflexivity.
    + inversion E; subst.
      assert (X : Matches (Seq (deriv c r1) r2) (s1 ++ s2))
        by (apply MSeq; [apply IH1; reflexivity|exact M2]).
      destruct (nullable r1); [apply MAltL|]; exact X.
  - apply MAltL. apply IH. exact E.
  - apply MAltR. apply IH. exact E.
  - discriminate.
  - destruct s1 as [|c1 s1]; simpl in E.
    + apply IH2. exact E.
    + inversion E; subst. apply MSeq; [apply IH1; reflexivity|exact M2].
Qed.

Lemma deriv_sound (c : code_unit) (r : re) :
  forall s, Matches (deriv c r) s -> Matches r (c :: s).
Proof.
  induction r; simpl; intros s M.
  - inversion M.
  - inversion M.
  - destruct (N.eqb_spec c c0) as [->|_]; inversion M; subst. constructor.
  - destruct (is_line_terminator c) eqn:V; inversion M; subst.
    constructor. exact V.
  - assert (S : forall s, Matches (Seq (deriv c r1) r2) s ->
                          Matches (Seq r1 r2) (c :: s)).
    { intros s0 M0. inversion M0; subst.
      match goal with
      | |- Matches _ (c :: ?s1 ++ ?s2) =>
          change (c :: s1 ++ s2) with ((c :: s1) ++ s2)
      end.
      apply MSeq; [apply IHr1; assumption|assumption]. }
    destruct (nullable r1) eqn:Nu; [|apply S; exact M].
    inversion M; subst; [apply S; assumption|].
    change (c :: s) with ([] ++ c :: s).
    apply MSeq; [apply nullable_spec; exact Nu|apply IHr2; assumption].
  - inversion M; subst; [apply MAltL; apply IHr1|apply MAltR; apply IHr2];
      assumption.
  - inversion M; subst.
    match goal with
    | |- Matches _ (c :: ?s1 ++ ?s2) =>
        change (c :: s1 ++ s2) with ((c :: s1) ++ s2)
    end.
    apply MStarS; [apply IHr; assumption|assumption].
Qed.

(** [test] succeeds exactly when some prefix of the string matches. *)
Lemma test_spec (r : re) (s : jsstring) :
  test r s = true <-> exists p q, s = p ++ q /\ Matches r p.
Proof.
  split.
  - revert r; induction s as [|c s IH]; intros r T; simpl in T.
    + rewrite orb_false_r in T. exists [], [].
      split; [reflexivity|apply nullable_spec; exact T].
    + apply orb_true_iff in T. destruct T as [T|T].
      * exists [], (c :: s). split; [reflexivity|apply nullable_spec; exact T].
      * destruct (IH _ T) as [p [q [-> M]]].
        exists (c :: p), q. split; [reflexivity|apply deriv_sound; exact M].
  - intros [p [q [-> M]]]. revert r M.
    induction p as [|c p IH]; intros r M.
    + apply nullable_spec in M. destruct q; simpl; rewrite M; reflexivity.
    + simpl. rewrite (IH (deriv c r)); [apply orb_true_r|].
      apply (deriv_complete M). reflexivity.
Qed.

Lemma Lit_matches (s : jsstring) : Matches (Lit s) s.
Proof.
  induction s as [|c s IH]; simpl; [constructor|].
  change (c :: s) with ([c] ++ s). apply MSeq; [constructor|exact IH].
Qed.

Lemma star_dot (s : jsstring) :
  forallb visible s = true -> Matches (Star Dot) s.
Proof.
  induction s as [|c s IH]; simpl; intros V; [constructor|].
  apply andb_true_iff in V. destruct V as [Vc Vs].
  change (c :: s) with ([c] ++ s).
  apply MStarS; [|apply IH; exact Vs].
  constructor. unfold visible in Vc. apply negb_true_iff. exact Vc.
Qed.

Lemma plus_dot (s : jsstring) :
  s <> [] -> forallb visible s = true -> Matches (Plus Dot) s.
Proof.
  destruct s as [|c s]; [congruence|]. intros _ V. simpl in V.
  apply andb_true_iff in V. destruct V as [Vc Vs].
  change (c :: s) with ([c] ++ s). apply MSeq; [|apply star_dot; exact Vs].
  constructor. unfold visible in Vc. apply negb_true_iff. exact Vc.
Qed.

(** ** The message formatter *)

Lemma type_tag_matches (t : change_type) :
  Matches
    (Alt (Lit (js "feat")) (Alt (Lit (js "fix")) (Alt (Lit (js "docs"))
     (Alt (Lit (js "style")) (Alt (Lit (js "refactor"))
     (Alt (Lit (js "test")) (Lit (js "chore"))))))))
    (type_name t).
Proof.
  destruct t;
    repeat first [ apply Lit_matches
                 | apply MAltL; apply Lit_matches
                 | apply MAltR ].
Qed.

(** A message of the conventional shape passes the pattern test. *)
Lemma shape_passes (x : jsstring) :
  conventional_shape x -> isConventionalFormat x = true.
Proof.
  intros [t [scope_part [description [-> [V S]]]]].
  destruct description as [|c rest]; [discriminate|]. simpl in V.
  unfold isConventionalFormat. apply test_spec.
  exists (type_name t ++ scope_part ++ js ": " ++ [c]), rest. split.
  - rewrite <- !app_assoc. reflexivity.
  - unfold conventionalPattern.
    apply MSeq; [apply type_tag_matches|].
    apply MSeq.
    + destruct S as [->|[inner [NE [Vi ->]]]].
      * apply MAltR. constructor.
      * apply MAltL. apply MSeq; [apply Lit_matches|].
        apply MSeq; [apply plus_dot; assumption|apply Lit_matches].
    + apply MSeq; [apply Lit_matches|].
      apply plus_dot; [discriminate|]. simpl. rewrite V. reflexivity.
Qed.

Lemma Lit_inv (s p : jsstring) : Matches (Lit s) p -> p = s.
Proof.
  revert p; induction s as [|c s IH]; simpl; intros p M; inversion M; subst.
  - reflexivity.
  - match goal with
    | M1 : Matches (Chr c) _, M2 : Matches (Lit s) _ |- _ =>
        inversion M1; subst; rewrite (IH _ M2); reflexivity
    end.
Qed.

Lemma star_dot_inv (r : re) (p : jsstring) :
  Matches r p -> r = Star Dot -> forallb visible p = true.
Proof.
  induction 1; intros E; try discriminate; [reflexivity|].
  inversion E; subst. rewrite forallb_app, IHMatches2 by reflexivity.
  match goal with
  | M : Matches Dot _ |- _ => inversion M; subst
  end.
  simpl. unfold visible.
  match goal with
  | V : is_line_terminator _ = false |- _ => rewrite V
  end. reflexivity.
Qed.

Lemma plus_dot_inv (p : jsstring) :
  Matches (Plus Dot) p -> p <> [] /\ forallb visible p = true.
Proof.
  intros M. inversion M; subst.
  match goal with
  | M1 : Matches Dot _, M2 : Matches (Star Dot) _ |- _ =>
      inversion M1; subst; pose proof (star_dot_inv M2 eq_refl) as V
  end.
  split; [discriminate|]. simpl. unfold visible at 1.
  match goal with
  | V : is_line_terminator _ = false |- _ => rewrite V
  end. exact V.
Qed.

Lemma type_tag_inv (p : jsstring) :
  Matches
    (Alt (Lit (js "feat")) (Alt (Lit (js "fix")) (Alt (Lit (js "docs"))
     (Alt (Lit (js "style")) (Alt (Lit (js "refactor"))
     (Alt (Lit (js "test")) (Lit (js "chore"))))))))
    p ->
  exists t, p = type_name t.
Proof.
  intros M.
  repeat match goal with
         | M : Matches (Alt _ _) _ |- _ => inversion M; subst; clear M
         end.
  - exists Feat.
    match goal with M : Matches _ p |- _ => exact (@Lit_inv (js "feat") p M) end.
  - exists Fix.
    match goal with M : Matches _ p |- _ => exact (@Lit_inv (js "fix") p M) end.
  - exists Docs.
    match goal with M : Matches _ p |- _ => exact (@Lit_inv (js "docs") p M) end.
  - exists Style.
    match goal with M : Matches _ p |- _ => exact (@Lit_inv (js "style") p M) end.
  - exists Refactor.
    match goal with M : Matches _ p |- _ => exact (@Lit_inv (js "refactor") p M) end.
  - exists Test.
    match goal with M : Matches _ p |- _ => exact (@Lit_inv (js "test") p M) end.
  - exists Chore.
    match goal with M : Matches _ p |- _ => exact (@Lit_inv (js "chore") p M) end.
Qed.

(** The pattern test is a check of the shape and of nothing else. *)
Lemma isConventionalFormat_shape (x : jsstring) :
  isConventionalFormat x = true <-> conventional_shape x.
Proof.
  split; [|apply shape_passes].
  unfold isConventionalFormat, conventionalPattern. intros T.
  apply test_spec in T. destruct T as [p [q [-> M]]].
  inversion M as [| | |? ? tag tail Mtag Mtail| | | |]; subst.
  inversion Mtail as [| | |? ? sc tail2 Msc Mtail2| | | |]; subst.
  inversion Mtail2 as [| | |? ? colon dots Mcolon Mdots| | | |]; subst.
  apply type_tag_inv in Mtag. destruct Mtag as [t ->].
  apply (@Lit_inv (js ": ")) in Mcolon. subst colon.
  apply plus_dot_inv in Mdots. destruct Mdots as [NE V].
  destruct dots as [|c dots]; [congruence|]. simpl in V.
  apply andb_true_iff in V. destruct V as [Vc _].
  exists t, sc, ((c :: dots) ++ q). split; [|split].
  - rewrite <- !app_assoc. reflexivity.
  - exact Vc.
  - inversion Msc as [| | | |? ? ? Mp|? ? ? Me| |]; subst.
    + right. inversion Mp as [| | |? ? open tail3 Mopen Mtail3| | | |]; subst.
      inversion Mtail3 as [| | |? ? inner close Minner Mclose| | | |]; subst.
      apply (@Lit_inv (js "(")) in Mopen.
      apply (@Lit_inv (js ")")) in Mclose. subst.
      apply plus_dot_inv in Minner. destruct Minner as [NEi Vi].
      exists inner. auto.
    + left. inversion Me. reflexivity.
Qed.

(** C8. A text that matches the conventional-commit pattern is returned
    unchanged by the formatter of either generator, for every analysis and
    every configured style. *)
Theorem conventional_message_unchanged (x : jsstring) (analysis : Analysis.t) :
  (exists head rest, x = head ++ rest /\ Matches conventionalPattern head) ->
  (forall style, Generator.formatCommitMessage style x analysis = x) /\
  (forall g, AICommitGenerator.formatCommitMessage g x analysis = x) /\
  (forall d, DashScopeGenerator.formatCommitMessage d x analysis = x).
Proof.
  intros P.
  assert (T : isConventionalFormat x = true) by (apply test_spec; exact P).
  unfold AICommitGenerator.formatCommitMessage,
         DashScopeGenerator.formatCommitMessage,
         Generator.formatCommitMessage.
  rewrite T. auto.
Qed.

Lemma conventional_message_unchanged_witness :
  Generator.formatCommitMessage Value.VUndefined
                                (js "fix(parser): handle empty input")
                                Scenario.guide_analysis
  = js "fix(parser): handle empty input".
Proof.
  apply (@conventional_message_unchanged
           (js "fix(parser): handle empty input") Scenario.guide_analysis).
  apply test_spec. vm_compute. reflexivity.
Defined.

Lemma formatted_is_conventional (style : Value.t) (x : jsstring)
      (analysis : Analysis.t) :
  Value.equals style (js "conventional") = true ->
  starts_visible x = true ->
  forallb visible (Analysis.scope analysis) = true ->
  isConventionalFormat (Generator.formatCommitMessage style x analysis) = true.
Proof.
  intros St Vx Vs. unfold Generator.formatCommitMessage.
  destruct (isConventionalFormat x) eqn:T; [exact T|]. rewrite St.
  apply shape_passes.
  exists (Analysis.type analysis).
  destruct (Analysis.scope analysis) as [|c sc] eqn:Sc.
  - exists [], x. simpl truthy. cbv iota. auto.
  - exists (js "(" ++ (c :: sc) ++ js ")"), x. simpl truthy. cbv iota.
    repeat split; [exact Vx|]. right. exists (c :: sc).
    repeat split; [discriminate|exact Vs].
Qed.

(** C3 (amended). Formatting twice is the same as formatting once whenever
    the style is not [conventional], or the text is already conventional, or
    the text begins with a character that is not a line terminator and the
    scope of the analysis has no line terminator.  (An empty text is not
    covered: see the counterexample.) *)
Theorem formatCommitMessage_idempotent_on
        (style : Value.t) (x : jsstring) (analysis : Analysis.t) :
  Value.equals style (js "conventional") = false \/
  isConventionalFormat x = true \/
  (starts_visible x = true /\
   forallb visible (Analysis.scope analysis) = true) ->
  Generator.formatCommitMessage
    style (Generator.formatCommitMessage style x analysis) analysis
  = Generator.formatCommitMessage style x analysis.
Proof.
  intros C.
  destruct (Value.equals style (js "conventional")) eqn:St.
  - destruct (isConventionalFormat x) eqn:T.
    + unfold Generator.formatCommitMessage. rewrite !T. reflexivity.
    + destruct C as [C|[C|[Vx Vs]]]; try discriminate.
      pose proof (@formatted_is_conventional style x analysis St Vx Vs) as F.
      unfold Generator.formatCommitMessage at 1. rewrite F. reflexivity.
  - unfold Generator.formatCommitMessage. rewrite St.
    destruct (isConventionalFormat x) eqn:T; rewrite T; reflexivity.
Qed.

Lemma formatCommitMessage_idempotent_on_witness :
  Generator.formatCommitMessage
    Scenario.conventional
    (Generator.formatCommitMessage Scenario.conventional (js "explain setup")
                                   Scenario.guide_analysis)
    Scenario.guide_analysis
  = Generator.formatCommitMessage Scenario.conventional (js "explain setup")
                                  Scenario.guide_analysis.
Proof.
  apply (@formatCommitMessage_idempotent_on
           Scenario.conventional (js "explain setup") Scenario.guide_analysis).
  right. right. split; reflexivity.
Defined.

(** C3 as stated fails: for an empty text and the conventional style the
    first pass yields [feat: ], which does not match the pattern, and the
    second pass prefixes it again. *)
Lemma formatCommitMessage_not_idempotent :
  Generator.formatCommitMessage Scenario.conventional [] Scenario.plain_analysis
  = js "feat: " /\
  Generator.formatCommitMessage
    Scenario.conventional
    (Generator.formatCommitMessage Scenario.conventional []
                                   Scenario.plain_analysis)
    Scenario.plain_analysis
  = js "feat: feat: " /\
  Generator.formatCommitMessage
    Scenario.conventional
    (Generator.formatCommitMessage Scenario.conventional []
                                   Scenario.plain_analysis)
    Scenario.plain_analysis
  <> Generator.formatCommitMessage Scenario.conventional []
                                   Scenario.plain_analysis.
Proof.
  repeat split; try reflexivity.
  vm_compute. discriminate.
Qed.

(** ** Defaults for falsy configuration values *)

Lemma orElse_falsy (a b : Value.t) :
  Value.truthy a = false -> Value.orElse a b = b.
Proof. unfold Value.orElse. intros ->. reflexivity. Qed.

Lemma orElse_twice (a b : Value.t) :
  Value.orElse (Value.orElse a b) b = Value.orElse a b.
Proof.
  unfold Value.orElse. destruct (Value.truthy a) eqn:T; [rewrite T|];
    [reflexivity|destruct (Value.truthy b); reflexivity].
Qed.

Lemma orElse_never_zero (a : Value.t) (sign : bool) :
  Value.orElse a Value.n0_3 <> Value.VNumber (S754_zero sign).
Proof.
  unfold Value.orElse. destruct (Value.truthy a) eqn:T.
  - intros E. rewrite E in T. discriminate.
  - discriminate.
Qed.

Lemma sent_values (self : AICommitGenerator.t) (diff : jsstring)
      (analysis : Analysis.t) (recentCommits : list Commit) :
  sent self diff analysis recentCommits =
  (Value.orElse (Config.maxTokens (AICommitGenerator.config self)) Value.n100,
   Value.orElse (Config.temperature (AICommitGenerator.config self)) Value.n0_3).
Proof.
  unfold sent. destruct (AICommitGenerator.dashscope self); simpl;
    rewrite ?orElse_twice; reflexivity.
Qed.

(** C10. A falsy numeric field of the configuration is replaced by the
    built-in default: a temperature of 0 (or any falsy value) becomes 0.3
    and a token budget of 0 becomes 100, in the generator that is built
    and in the request that is sent; a temperature of zero is never sent. *)
Theorem falsy_numbers_fall_back
        (self : AICommitGenerator.t) (diff : jsstring)
        (analysis : Analysis.t) (recentCommits : list Commit) :
  let config := AICommitGenerator.config self in
  let built := DashScopeGenerator.options (AICommitGenerator.generator self) in
  let request := sent self diff analysis recentCommits in
  (Value.truthy (Config.temperature config) = false ->
   snd request = Value.n0_3 /\
   DashScopeGenerator.temperature built = Value.n0_3) /\
  (Value.truthy (Config.maxTokens config) = false ->
   fst request = Value.n100 /\
   DashScopeGenerator.maxTokens built = Value.n100) /\
  (forall sign, snd request <> Value.VNumber (S754_zero sign)).
Proof.
  intros config built request. unfold request, built.
  rewrite sent_values. fold config. simpl.
  rewrite !orElse_twice. repeat split.
  - apply orElse_falsy; assumption.
  - apply orElse_falsy; assumption.
  - apply orElse_falsy; assumption.
  - apply orElse_falsy; assumption.
  - apply orElse_never_zero.
Qed.

Lemma falsy_numbers_fall_back_witness :
  sent (Scenario.generator Scenario.zero_temperature_config)
       Scenario.small_diff Scenario.app_analysis []
  = (Value.n100, Value.n0_3).
Proof.
  pose proof (@falsy_numbers_fall_back
                (Scenario.generator Scenario.zero_temperature_config)
                Scenario.small_diff Scenario.app_analysis []) as [T [M _]].
  destruct (T eq_refl) as [Ts _]. destruct (M eq_refl) as [Ms _].
  rewrite (surjective_pairing (sent _ _ _ _)). rewrite Ts, Ms. reflexivity.
Defined.

(** ** The orchestrator *)

(** C2 (amended). The single-message operation never throws, and this is
    what it leaves behind on every path, result and console together.
    - It returns what its try block returns; an error thrown inside the
      block is caught, its message is printed unless the object is silent,
      and the result is [null].
    - Not a repository (the status call fails): the notice is printed
      unless silent, the result is [null].
    - No pending changes (the second status call fails or lists no file):
      the notice is printed unless silent, the result is [null].
    - Otherwise the spinner starts unless silent, and a failure of
      [getDiff], of [analyzeChanges], of [getRecentCommits], of the
      generator, or a generator that is still [null], ends in the catch
      block: message printed unless silent, result [null].  Only a
      generator that returns gives a message, and the spinner succeeds
      unless silent.
    So [null] covers "not a repository", "no pending changes" and every
    failure alike. *)
Theorem generateCommitMessage_never_throws
        (W : Type) (host : Host W) (self : GitAutoCommit.t) (w : W) :
  (exists result w',
      GitAutoCommit.generateCommitMessage self w = (inr result, w')) /\
  (forall e w',
      GitAutoCommit.attempt self w = (inl e, w') ->
      GitAutoCommit.generateCommitMessage self w
      = (inr None,
         if GitAutoCommit.silent self then w'
         else show (Failed (Error.message e)) w')) /\
  (forall result w',
      GitAutoCommit.attempt self w = (inr result, w') ->
      GitAutoCommit.generateCommitMessage self w = (inr result, w')) /\
  (forall e w1,
      git_status w = (inl e, w1) ->
      GitAutoCommit.generateCommitMessage self w
      = (inr None,
         if GitAutoCommit.silent self then w1 else show NotARepository w1)) /\
  (forall status w1,
      git_status w = (inr status, w1) ->
      (forall e w2,
          git_status w1 = (inl e, w2) ->
          GitAutoCommit.generateCommitMessage self w
          = (inr None,
             if GitAutoCommit.silent self then w2 else show NoChanges w2)) /\
      (forall status' w2,
          git_status w1 = (inr status', w2) ->
          (Status.files status' = [] ->
           GitAutoCommit.generateCommitMessage self w
           = (inr None,
              if GitAutoCommit.silent self then w2 else show NoChanges w2)) /\
          (Status.files status' <> [] ->
           forall w3,
             w3 = (if GitAutoCommit.silent self then w2
                   else show SpinnerStart w2) ->
             (forall e w4,
                 GitAnalyzer.getDiff w3 = (inl e, w4) ->
                 GitAutoCommit.generateCommitMessage self w
                 = (inr None,
                    if GitAutoCommit.silent self then w4
                    else show (Failed (Error.message e)) w4)) /\
             (forall diff w4,
                 GitAnalyzer.getDiff w3 = (inr diff, w4) ->
                 (forall e w5,
                     GitAnalyzer.analyzeChanges w4 = (inl e, w5) ->
                     GitAutoCommit.generateCommitMessage self w
                     = (inr None,
                        if GitAutoCommit.silent self then w5
                        else show (Failed (Error.message e)) w5)) /\
                 (forall analysis w5,
                     GitAnalyzer.analyzeChanges w4 = (inr analysis, w5) ->
                     (forall e w6,
                         GitAnalyzer.getRecentCommits 5 w5 = (inl e, w6) ->
                         GitAutoCommit.generateCommitMessage self w
                         = (inr None,
                            if GitAutoCommit.silent self then w6
                            else show (Failed (Error.message e)) w6)) /\
                     (forall recentCommits w6 w7,
                         GitAnalyzer.getRecentCommits 5 w5
                         = (inr recentCommits, w6) ->
                         w7 = (if GitAutoCommit.silent self then w6
                               else show SpinnerText w6) ->
                         match GitAutoCommit.aiGenerator self with
                         | None =>
                             GitAutoCommit.generateCommitMessage self w
                             = (inr None,
                                if GitAutoCommit.silent self then w7
                                else show
                                       (Failed
                                          (Error.message
                                             (GitAutoCommit.null_receiver
                                                (js "generateCommitMessage"))))
                                       w7)
                         | Some generator =>
                             (forall e w8,
                                 AICommitGenerator.generateCommitMessage
                                   generator diff analysis recentCommits w7
                                 = (inl e, w8) ->
                                 GitAutoCommit.generateCommitMessage self w
                                 = (inr None,
                                    if GitAutoCommit.silent self then w8
                                    else show (Failed (Error.message e)) w8)) /\
                             (forall commitMessage w8,
                                 AICommitGenerator.generateCommitMessage
                                   generator diff analysis recentCommits w7
                                 = (inr commitMessage, w8) ->
                                 GitAutoCommit.generateCommitMessage self w
                                 = (inr (Some commitMessage),
                                    if GitAutoCommit.silent self then w8
                                    else show SpinnerSucceed w8))
                         end)))))).
Proof.
  split; [|split; [|split]].
  - unfold GitAutoCommit.generateCommitMessage, try_catch.
    destruct (GitAutoCommit.attempt self w) as [[e|r] w'];
      eexists; eexists; reflexivity.
  - intros e w' E. unfold GitAutoCommit.generateCommitMessage, try_catch.
    rewrite E. reflexivity.
  - intros r w' E. unfold GitAutoCommit.generateCommitMessage, try_catch.
    rewrite E. reflexivity.
  - unfold GitAutoCommit.generateCommitMessage, GitAutoCommit.attempt,
      GitAnalyzer.isGitRepo, GitAnalyzer.hasChanges.
    unfold try_catch, bind, ret, tell, throw.
    split.
    + intros e w1 E1. rewrite E1. reflexivity.
    + intros status w1 E1. rewrite E1. cbv beta iota. cbn [negb].
      split.
      * intros e w2 E2. rewrite E2. reflexivity.
      * intros status' w2 E2. rewrite E2. cbv beta iota. split.
        { intros F. rewrite F. reflexivity. }
        intros F w3 ->.
        destruct (Status.files status') as [|f fs]; [contradiction|].
        cbn [length Nat.ltb Nat.leb negb]. cbv beta iota.
        split.
        { intros e w4 E4. rewrite E4. reflexivity. }
        intros diff w4 E4. rewrite E4. cbv beta iota. split.
        { intros e w5 E5. rewrite E5. reflexivity. }
        intros analysis w5 E5. rewrite E5. cbv beta iota. split.
        { intros e w6 E6. rewrite E6. reflexivity. }
        intros recentCommits w6 w7 E6 ->. rewrite E6. cbv beta iota.
        destruct (GitAutoCommit.aiGenerator self) as [generator|].
        { split.
          - intros e w8 E8. rewrite E8. reflexivity.
          - intros m w8 E8. rewrite E8. reflexivity. }
        reflexivity.
Qed.

(** In a repository with pending changes whose provider rejects the
    request, the try block throws the generator's error and the operation
    answers [null]; outside a repository it answers [null] as well. *)
Lemma generateCommitMessage_never_throws_witness :
  @GitAutoCommit.attempt nat (Mock.host Scenario.provider_down)
                         Scenario.orchestrator 0
  = (inl (Error.new AICommitGenerator.openai_quota), 1) /\
  @GitAutoCommit.generateCommitMessage
    nat (Mock.host Scenario.provider_down) Scenario.orchestrator 0
  = (inr None, 1) /\
  @GitAutoCommit.generateCommitMessage
    nat (Mock.host Scenario.outside_repository) Scenario.orchestrator 0
  = (inr None, 0).
Proof.
  split; [reflexivity|split].
  - exact (proj1 (proj2 (@generateCommitMessage_never_throws
                           nat (Mock.host Scenario.provider_down)
                           Scenario.orchestrator 0))
                 (Error.new AICommitGenerator.openai_quota) 1 eq_refl).
  - exact (proj1 (proj2 (proj2 (proj2
             (@generateCommitMessage_never_throws
                nat (Mock.host Scenario.outside_repository)
                Scenario.orchestrator 0))))
                 (Error.new (js "fatal: not a git repository")) 0 eq_refl).
Defined.

(** C2 as stated fails: in a repository with pending changes the provider
    rejects the request; the generator throws, and the operation returns
    [null] instead of passing the error on. *)
Lemma provider_failure_returns_null :
  fst (@GitAnalyzer.isGitRepo nat (Mock.host Scenario.provider_down) 0)
  = inr true /\
  fst (@GitAnalyzer.hasChanges nat (Mock.host Scenario.provider_down) 0)
  = inr true /\
  fst (@AICommitGenerator.generateCommitMessage
         nat (Mock.host Scenario.provider_down)
         (Scenario.generator Scenario.openai_config)
         Scenario.small_diff Scenario.app_analysis [] 0)
  = inl (Error.new AICommitGenerator.openai_quota) /\
  fst (@GitAutoCommit.generateCommitMessage
         nat (Mock.host Scenario.provider_down) Scenario.orchestrator 0)
  = inr None.
Proof. repeat split. Qed.

(** ** Several candidates *)

Lemma earliest_rejection_none {A} (promises : list (nat * (Error.t + A)))
      (results : list A) :
  map snd promises = map inr results ->
  earliest_rejection promises = None /\ values promises = results.
Proof.
  revert results; induction promises as [|[time [e|a]] promises IH];
    intros [|r results] E; simpl in E; try discriminate.
  - split; reflexivity.
  - inversion E; subst. destruct (IH _ H1) as [N V].
    simpl. rewrite N, V. split; reflexivity.
Qed.

Lemma earliest_rejection_some {A} (promises : list (nat * (Error.t + A)))
      (e : Error.t) :
  In (inl e) (map snd promises) ->
  exists time e', earliest_rejection promises = Some (time, e').
Proof.
  induction promises as [|[time [e0|a]] promises IH]; simpl; intros I.
  - destruct I.
  - destruct (earliest_rejection promises) as [[time' e']|].
    + destruct (time' <? time); eauto.
    + eauto.
  - destruct I as [I|I]; [discriminate|]. apply IH. exact I.
Qed.

(** All calls fulfilled: the distinct results, in call order. *)
Lemma collect_fulfilled (promises : list (nat * (Error.t + jsstring)))
      (results : list jsstring) :
  map snd promises = map inr results ->
  Generator.collect promises = inr (Set_of results).
Proof.
  intros E. destruct (@earliest_rejection_none _ promises results E) as [N V].
  unfold Generator.collect, Promise_all. rewrite N, V. reflexivity.
Qed.

(** One call rejected: the whole collection is rejected. *)
Lemma collect_rejected (promises : list (nat * (Error.t + jsstring)))
      (e : Error.t) :
  In (inl e) (map snd promises) ->
  exists e', Generator.collect promises = inl e'.
Proof.
  intros I. destruct (@earliest_rejection_some _ promises e I) as [time [e' R]].
  unfold Generator.collect, Promise_all. rewrite R. eauto.
Qed.

Lemma generateMultipleOptions_collect
      (W : Type) (host : Host W) (self : AICommitGenerator.t)
      (diff : jsstring) (analysis : Analysis.t) (recentCommits : list Commit)
      (count : nat) (w : W) :
  fst (AICommitGenerator.generateMultipleOptions
         self diff analysis recentCommits count w)
  = Generator.collect
      (fst (launch count
                   (AICommitGenerator.generateCommitMessage_promise
                      self diff analysis recentCommits) w)).
Proof.
  unfold AICommitGenerator.generateMultipleOptions,
         AICommitGenerator.generateCommitMessage_promise,
         DashScopeGenerator.generateMultipleOptions.
  destruct (AICommitGenerator.dashscope self);
    match goal with
    | |- context [launch ?n ?c ?w] => destruct (launch n c w)
    end; reflexivity.
Qed.

(** C9 (amended). With a count of 3: when the three generate calls return
    three pairwise different messages (after trimming and formatting),
    exactly these three candidates are returned; when they return the same
    message, exactly one; and when any call fails, the operation fails and
    returns nothing. *)
Theorem generateMultipleOptions_three
        (W : Type) (host : Host W) (self : AICommitGenerator.t)
        (diff : jsstring) (analysis : Analysis.t)
        (recentCommits : list Commit) (w : W) :
  let outcomes :=
    map snd (fst (launch 3 (AICommitGenerator.generateCommitMessage_promise
                              self diff analysis recentCommits) w)) in
  let result :=
    fst (AICommitGenerator.generateMultipleOptions
           self diff analysis recentCommits 3 w) in
  (forall m1 m2 m3,
      outcomes = [inr m1; inr m2; inr m3] ->
      m1 <> m2 -> m1 <> m3 -> m2 <> m3 ->
      result = inr [m1; m2; m3]) /\
  (forall m, outcomes = [inr m; inr m; inr m] -> result = inr [m]) /\
  (forall e, In (inl e) outcomes -> exists e', result = inl e').
Proof.
  intros outcomes result. unfold result.
  rewrite generateMultipleOptions_collect. fold outcomes.
  set (promises := fst (launch 3 _ w)) in *.
  repeat split.
  - intros m1 m2 m3 E D12 D13 D23.
    rewrite (@collect_fulfilled promises [m1; m2; m3] E).
    apply str_eqb_neq in D12, D13, D23.
    assert (D21 : str_eqb m2 m1 = false)
      by (apply str_eqb_neq; apply str_eqb_neq in D12; congruence).
    assert (D31 : str_eqb m3 m1 = false)
      by (apply str_eqb_neq; apply str_eqb_neq in D13; congruence).
    assert (D32 : str_eqb m3 m2 = false)
      by (apply str_eqb_neq; apply str_eqb_neq in D23; congruence).
    unfold Set_of, Set_add, Set_has. simpl.
    rewrite D21. simpl. rewrite D31, D32. reflexivity.
  - intros m E. rewrite (@collect_fulfilled promises [m; m; m] E).
    unfold Set_of, Set_add, Set_has. simpl.
    rewrite str_eqb_refl. simpl. rewrite str_eqb_refl. reflexivity.
  - intros e I. exact (@collect_rejected promises e I).
Qed.

Lemma generateMultipleOptions_three_witness :
  fst (@AICommitGenerator.generateMultipleOptions
         nat (Mock.host Scenario.three_messages)
         (Scenario.generator Scenario.openai_config)
         Scenario.small_diff Scenario.app_analysis [] 3 0)
  = inr [js "feat(src): update app"; js "fix: typo"; js "feat(src): tidy"].
Proof.
  apply (@generateMultipleOptions_three
           nat (Mock.host Scenario.three_messages)
           (Scenario.generator Scenario.openai_config)
           Scenario.small_diff Scenario.app_analysis [] 0).
  - reflexivity.
  - vm_compute. discriminate.
  - vm_compute. discriminate.
  - vm_compute. discriminate.
Defined.

(** C9 as stated fails: three different answers of the provider that
    differ only in a prefix or in surrounding blanks become the same
    message, and one candidate is returned, not three. *)
Lemma distinct_answers_one_candidate :
  map snd (Mock.replies Scenario.three_spellings)
  = [Scenario.answer (js "update app");
     Scenario.answer (js "feat(src): update app");
     Scenario.answer (js "update app ")] /\
  NoDup (map snd (Mock.replies Scenario.three_spellings)) /\
  fst (@AICommitGenerator.generateMultipleOptions
         nat (Mock.host Scenario.three_spellings)
         (Scenario.generator Scenario.openai_config)
         Scenario.small_diff Scenario.app_analysis [] 3 0)
  = inr [js "feat(src): update app"].
Proof.
  split; [reflexivity|]. split; [|reflexivity].
  simpl. repeat constructor; simpl; intuition discriminate.
Qed.

(** ** Pending changes and the change set *)

(** C4 fails on the code: with a single untracked file [hasChanges]
    answers true while the change set of the analysis is empty. *)
Theorem untracked_file_empty_change_set :
  fst (@GitAnalyzer.hasChanges nat (Mock.host Scenario.untracked_repository) 0)
  = inr true /\
  exists analysis,
    fst (@GitAnalyzer.analyzeChanges
           nat (Mock.host Scenario.untracked_repository) 0) = inr analysis /\
    Analysis.files analysis = [] /\
    filesChanged (Analysis.stats analysis) = 0.
Proof.
  split; [reflexivity|].
  eexists. split; [reflexivity|]. split; reflexivity.
Qed.

(** The change set is empty exactly when the four lists it is built from
    are empty, whatever [status.files] holds. *)
Lemma changedFiles_empty (changes : Changes.t) :
  changedFiles changes = [] <->
  Changes.staged changes = [] /\ Changes.modified changes = [] /\
  Changes.created changes = [] /\ Changes.deleted changes = [].
Proof.
  unfold changedFiles.
  set (all := Changes.staged changes ++ _).
  assert (E : Set_of all = [] <-> all = []).
  { split; intros E.
    - destruct all as [|x l]; [reflexivity|].
      assert (I : In x (Set_of (x :: l))) by (apply Set_of_In; left; reflexivity).
      rewrite E in I. destruct I.
    - rewrite E. reflexivity. }
  rewrite E. unfold all. split.
  - intros A. apply app_eq_nil in A. destruct A as [A1 A].
    apply app_eq_nil in A. destruct A as [A2 A].
    apply app_eq_nil in A. destruct A as [A3 A4]. auto.
  - intros [-> [-> [-> ->]]]. reflexivity.
Qed.

(** ** Worked scenarios *)

(** One created file under [src/] and a diff with ten added lines: the
    analysis is [feat], scope [src], one file, ten additions, no deletion. *)
Example created_file_scenario :
  analyze {| Changes.staged := []; Changes.modified := [];
             Changes.created := [js "src/a.js"]; Changes.deleted := [];
             Changes.renamed := [] |}
          (join [NL] (repeat (js "+line") 10))
  = {| Analysis.type := Feat;
       Analysis.scope := js "src";
       Analysis.files := [js "src/a.js"];
       Analysis.stats := {| additions := 10; deletions := 0; filesChanged := 1 |} |}.
Proof. reflexivity. Qed.

(** Directories named like array indices come first in the key order, so
    with one file each the directory met first wins here. *)
Example numbered_directories_scenario :
  key_order (candidates [js "src/x.js"; js "10/y.js"; js "9/z.js"])
  = [js "9"; js "10"; js "src"] /\
  inferScope [js "src/x.js"; js "10/y.js"; js "9/z.js"] = js "src".
Proof. split; reflexivity. Qed.

(** No pending change: the operation returns [null] and sends nothing. *)
Example no_changes_scenario :
  @GitAutoCommit.generateCommitMessage
    nat (Mock.host {| Mock.status :=
                        inr {| Status.files := []; Status.not_added := [];
                               Status.staged := []; Status.modified := [];
                               Status.created := []; Status.deleted := [];
                               Status.renamed := []; Status.current := js "main" |};
                      Mock.staged_diff := inr [];
                      Mock.working_diff := inr [];
                      Mock.log := inr [];
                      Mock.replies := [(1, Scenario.answer (js "feat: x"))] |})
    Scenario.orchestrator 0
  = (inr None, 0).
Proof. reflexivity. Qed.

(* ====================================================================== *)
(** * Part III: further properties of the code *)
(* ====================================================================== *)

(** ** Truncation *)

(** The shape of a cut diff. *)
Lemma truncateDiff_cut (diff : jsstring) :
  50 < length (split NL diff) ->
  truncateDiff diff
  = join [NL] (firstn 50 (split NL diff)) ++ NL :: truncated_marker /\
  split NL (truncateDiff diff)
  = firstn 50 (split NL diff) ++ [truncated_marker].
Proof.
  intros L. unfold truncateDiff, truncateDiff_upto.
  destruct diff as [|c d]; [simpl in L; lia|].
  simpl truthy. simpl negb. cbv iota zeta.
  assert (L' : (length (split NL (c :: d)) <=? 50) = false)
    by (apply Nat.leb_gt; exact L).
  rewrite L'. split; [reflexivity|].
  set (lines := split NL (c :: d)) in *.
  assert (NE : firstn 50 lines <> [])
    by (destruct lines; simpl in *; [lia|discriminate]).
  assert (F : Forall (free_of NL) (firstn 50 lines))
    by (apply Forall_firstn; apply split_pieces_free).
  rewrite (split_join_then truncated_marker NE F). reflexivity.
Qed.

Lemma truncateDiff_short (diff : jsstring) :
  length (split NL diff) <= 50 -> truncateDiff diff = diff.
Proof.
  intros L. unfold truncateDiff, truncateDiff_upto.
  destruct diff as [|c d]; [reflexivity|].
  simpl truthy. simpl negb. cbv iota zeta.
  apply Nat.leb_le in L. rewrite L. reflexivity.
Qed.


(** X2. Cutting a diff twice is the same as cutting it once. *)
Theorem truncateDiff_idempotent (diff : jsstring) :
  truncateDiff (truncateDiff diff) = truncateDiff diff.
Proof.
  destruct (Nat.le_gt_cases (length (split NL diff)) 50) as [L|L].
  - rewrite (truncateDiff_short diff L). apply truncateDiff_short. exact L.
  - destruct (truncateDiff_cut diff L) as [E S].
    assert (Len : length (firstn 50 (split NL diff)) = 50)
      by (rewrite length_firstn; lia).
    assert (L2 : 50 < length (split NL (truncateDiff diff)))
      by (rewrite S, length_app, Len; simpl; lia).
    destruct (truncateDiff_cut (truncateDiff diff) L2) as [E2 _].
    rewrite E2, S.
    rewrite firstn_app, Len, Nat.sub_diag, firstn_O, app_nil_r.
    rewrite firstn_firstn, Nat.min_id. symmetry. exact E.
Qed.

(** ** The analysis *)

Lemma filter_disjoint_length {A} (p q : A -> bool) (l : list A) :
  (forall x, p x = true -> q x = false) ->
  length (filter p l) + length (filter q l) <= length l.
Proof.
  intros D. induction l as [|x l IH]; simpl; [lia|].
  destruct (p x) eqn:P.
  - rewrite (D x P). simpl. lia.
  - destruct (q x); simpl; lia.
Qed.

(** X3. A line is counted as an addition or as a deletion, never as both:
    the two counts together do not exceed the number of lines of the diff,
    and both are 0 for an empty diff. *)
Theorem diffStats_bounded (changes : Changes.t) (diff : jsstring) :
  additions (Analysis.stats (analyze changes diff))
  + deletions (Analysis.stats (analyze changes diff))
  <= length (split NL diff) /\
  (diff = [] ->
   additions (Analysis.stats (analyze changes diff)) = 0 /\
   deletions (Analysis.stats (analyze changes diff)) = 0).
Proof.
  unfold analyze, diffStats. cbn [Analysis.stats]. split.
  - destruct (truthy diff); cbn [additions deletions]; [|lia].
    apply filter_disjoint_length. intros line P.
    destruct line as [|c line]; [discriminate|]. simpl in *.
    apply andb_true_iff in P. destruct P as [P _].
    apply N.eqb_eq in P. subst c. reflexivity.
  - intros ->. split; reflexivity.
Qed.

(** X4. The change set has no duplicates, holds exactly the paths of the
    four lists, and [filesChanged] is its size. *)
Theorem changed_files_distinct (changes : Changes.t) (diff : jsstring) :
  let analysis := analyze changes diff in
  NoDup (Analysis.files analysis) /\
  (forall file, In file (Analysis.files analysis) <-> In file (listed changes)) /\
  filesChanged (Analysis.stats analysis) = length (Analysis.files analysis) /\
  length (Analysis.files analysis) <= length (listed changes).
Proof.
  intros analysis. unfold analysis, analyze, changedFiles, listed.
  cbn [Analysis.files Analysis.stats].
  set (all := Changes.staged changes ++ _).
  repeat split.
  - apply Set_of_NoDup.
  - apply Set_of_In.
  - apply Set_of_In.
  - unfold diffStats. destruct (truthy diff); reflexivity.
  - apply NoDup_incl_length; [apply Set_of_NoDup|].
    intros x I. apply Set_of_In. exact I.
Qed.

(** X5. The inferred type is one of [feat], [test], [docs] and [chore]:
    the analysis never proposes [fix], [style] or [refactor]. *)
Theorem inferred_type_range (changes : Changes.t) (diff : jsstring) :
  In (Analysis.type (analyze changes diff)) [Feat; Test; Docs; Chore].
Proof.
  unfold analyze, inferType. cbn [Analysis.type].
  repeat match goal with
         | |- context [if ?c then _ else _] => destruct c
         end; simpl; auto.
Qed.

Lemma existsb_same_members {A} (f : A -> bool) (l1 l2 : list A) :
  (forall x, In x l1 <-> In x l2) -> existsb f l1 = existsb f l2.
Proof.
  intros S. destruct (existsb f l1) eqn:E1; destruct (existsb f l2) eqn:E2;
    try reflexivity.
  - apply existsb_exists in E1. destruct E1 as [x [I F]].
    assert (X : existsb f l2 = true)
      by (apply existsb_exists; exists x; split; [apply S; exact I|exact F]).
    congruence.
  - apply existsb_exists in E2. destruct E2 as [x [I F]].
    assert (X : existsb f l1 = true)
      by (apply existsb_exists; exists x; split; [apply S; exact I|exact F]).
    congruence.
Qed.

(** X6. The inferred type does not depend on the order in which git lists
    the files, nor on the diff: two states whose four lists hold the same
    paths get the same type. *)
Theorem inferred_type_order_free
        (c1 c2 : Changes.t) (diff1 diff2 : jsstring) :
  (forall f, In f (Changes.staged c1) <-> In f (Changes.staged c2)) ->
  (forall f, In f (Changes.modified c1) <-> In f (Changes.modified c2)) ->
  (forall f, In f (Changes.created c1) <-> In f (Changes.created c2)) ->
  (forall f, In f (Changes.deleted c1) <-> In f (Changes.deleted c2)) ->
  Analysis.type (analyze c1 diff1) = Analysis.type (analyze c2 diff2).
Proof.
  intros S M C D. unfold analyze, inferType. cbn [Analysis.type].
  assert (Same : forall f, In f (changedFiles c1) <-> In f (changedFiles c2)).
  { intros f. unfold changedFiles. rewrite !Set_of_In, !in_app_iff.
    rewrite S, M, C, D. reflexivity. }
  assert (Empty : forall l1 l2 : list jsstring,
             (forall f, In f l1 <-> In f l2) ->
             (0 <? length l1) = (0 <? length l2)).
  { intros [|x l1] [|y l2] I; try reflexivity.
    - destruct (proj2 (I y) (or_introl eq_refl)).
    - destruct (proj1 (I x) (or_introl eq_refl)). }
  rewrite (Empty _ _ C), (Empty _ _ D).
  rewrite (existsb_same_members _ _ _ Same).
  rewrite (existsb_same_members
             (fun file => includes file (js "doc") || includes file (js "README"))
             _ _ Same).
  rewrite (existsb_same_members
             (fun file => includes file (js "config")
                          || includes file (js "package.json"))
             _ _ Same).
  reflexivity.
Qed.

Lemma inferred_type_order_free_witness :
  Analysis.type
    (analyze {| Changes.staged := [js "b.test.js"; js "a.js"];
                Changes.modified := [js "a.js"; js "b.test.js"];
                Changes.created := []; Changes.deleted := [];
                Changes.renamed := [] |} Scenario.small_diff)
  = Analysis.type
      (analyze {| Changes.staged := [js "a.js"; js "b.test.js"];
                  Changes.modified := [js "b.test.js"; js "a.js"; js "a.js"];
                  Changes.created := []; Changes.deleted := [];
                  Changes.renamed := [] |} []).
Proof.
  apply inferred_type_order_free; simpl; intros f; tauto.
Defined.

(** ** The scope *)

Lemma countScope_keys (o : Obj.object) (s k : jsstring) :
  In k (map fst (countScope o s)) ->
  In k (map fst o) \/ (k = s /\ truthy s = true).
Proof.
  unfold countScope, Obj.set. destruct (truthy s) eqn:T; [|auto].
  destruct (str_eqb s (js "__proto__")); [auto|].
  rewrite keys_update. destruct (Obj.own o s); [auto|].
  rewrite in_app_iff. simpl. intuition.
Qed.

Lemma tally_keys (l : list jsstring) (o : Obj.object) (k : jsstring) :
  In k (map fst (fold_left countScope l o)) ->
  In k (map fst o) \/ (In k l /\ truthy k = true).
Proof.
  revert o; induction l as [|s l IH]; intros o I; simpl in I; [auto|].
  destruct (IH _ I) as [I'|[I' T]].
  - destruct (countScope_keys o s k I') as [I0|[-> T]]; [auto|].
    right. split; [left; reflexivity|exact T].
  - right. split; [right; exact I'|exact T].
Qed.

Lemma reduce_member (f : jsstring -> jsstring -> jsstring)
      (others : list jsstring) (first : jsstring) :
  (forall a b, f a b = a \/ f a b = b) ->
  In (reduce f first others) (first :: others).
Proof.
  intros F. unfold reduce. revert first.
  induction others as [|b others IH]; intros first; simpl; [auto|].
  destruct (IH (f first b)) as [E|I]; [|auto].
  rewrite <- E. destruct (F first b) as [-> | ->]; auto.
Qed.

Lemma commonPaths_segment (files : list jsstring) (k : jsstring) :
  In k (commonPaths files) -> truthy k = true ->
  exists file, In file files /\ first_segment file = Some k.
Proof.
  unfold commonPaths. rewrite in_map_iff. intros [file [E I]] T.
  exists file. split; [exact I|].
  pose proof (first_segment_split file) as S.
  destruct (first_segment file) as [seg|].
  - destruct S as [r [rs S]]. rewrite S in E. simpl in E. subst. reflexivity.
  - rewrite S in E. simpl in E. subst k. discriminate.
Qed.

(** X7. The scope is either empty or the non-empty first segment of one of
    the changed paths; so it never contains a directory separator.  This
    holds for every path, whatever its segments are called. *)
Theorem scope_is_a_first_segment (changes : Changes.t) (diff : jsstring) :
  let scope := Analysis.scope (analyze changes diff) in
  scope = [] \/
  (scope <> [] /\ free_of SLASH scope /\
   exists file rest,
     In file (listed changes) /\ file = scope ++ SLASH :: rest).
Proof.
  intros scope. unfold scope, analyze. cbn [Analysis.scope].
  set (files := changedFiles changes).
  unfold inferScope.
  destruct (Obj.keys (tally (commonPaths files))) as [|first others] eqn:K;
    [left; reflexivity|right].
  set (f := fun a b : jsstring =>
              if Obj.gt (Obj.own (tally (commonPaths files)) a)
                        (Obj.own (tally (commonPaths files)) b)
              then a else b).
  assert (I : In (reduce f first others) (first :: others)).
  { apply reduce_member. intros a b. unfold f.
    destruct (Obj.gt _ _); auto. }
  rewrite <- K in I. unfold Obj.keys in I. rewrite property_order_In in I.
  unfold tally in I. apply tally_keys in I. destruct I as [[]|[I T]].
  destruct (commonPaths_segment files _ I T) as [file [If Seg]].
  apply first_segment_spec in Seg. destruct Seg as [Free [rest E]].
  split; [|split; [exact Free|]].
  - intros Z. rewrite Z in T. discriminate.
  - exists file, rest. split; [|exact E].
    unfold files, changedFiles in If. rewrite Set_of_In in If. exact If.
Qed.

(** Where the scope stands in the key order (for ordinary candidates). *)
Lemma inferScope_position (files : list jsstring) :
  forallb ordinary (candidates files) = true ->
  candidates files <> [] ->
  exists before after,
    key_order (candidates files) = before ++ inferScope files :: after /\
    (forall k, In k before ->
       occurrences k (candidates files)
       <= occurrences (inferScope files) (candidates files)) /\
    (forall k, In k after ->
       occurrences k (candidates files)
       < occurrences (inferScope files) (candidates files)).
Proof.
  intros O NE. set (cands := candidates files) in *.
  destruct (tally_counts (candidates_truthy files) O) as [K V].
  fold cands in K, V.
  unfold inferScope. rewrite tally_candidates. fold cands.
  unfold Obj.keys. rewrite K. fold (key_order cands).
  assert (Mem : forall k, In k (key_order cands) -> Set_has k cands = true).
  { intros k I. apply Set_has_spec. apply Set_of_In.
    apply property_order_In. exact I. }
  destruct (key_order cands) as [|first others] eqn:KO.
  - exfalso. destruct cands as [|c cs]; [congruence|].
    assert (I : In c (key_order (c :: cs)))
      by (apply property_order_In; apply Set_of_In; left; reflexivity).
    rewrite KO in I. destruct I.
  - assert (Vk : forall k, In k (first :: others) ->
                   Obj.own (tally cands) k
                   = Some (Obj.Num (occurrences k cands)))
      by (intros k I; rewrite V, (Mem k I); reflexivity).
    destruct (@reduce_last_max (tally cands) (fun k => occurrences k cands)
                others [] first [] Vk) as [before [after [E [B A]]]];
      try (intros k []).
    exists before, after. simpl in E. rewrite E. auto.
Qed.

(** X8. A directory that holds more of the changed paths than any other
    directory is the scope, wherever it stands among the paths. *)
Theorem scope_strict_majority (files : list jsstring) (k : jsstring) :
  forallb ordinary (candidates files) = true ->
  In k (candidates files) ->
  (forall k', In k' (candidates files) -> k' <> k ->
     occurrences k' (candidates files) < occurrences k (candidates files)) ->
  inferScope files = k.
Proof.
  intros O I Major.
  assert (NE : candidates files <> []) by (intros Z; rewrite Z in I; destruct I).
  destruct (inferScope_position files O NE) as [before [after [E [B A]]]].
  assert (Ik : In k (key_order (candidates files)))
    by (apply property_order_In; apply Set_of_In; exact I).
  assert (Is : In (inferScope files) (candidates files)).
  { apply Set_of_In. apply (property_order_In _ (Set_of (candidates files))).
    fold (key_order (candidates files)). rewrite E.
    apply in_app_iff. right. left. reflexivity. }
  destruct (list_eq_dec N.eq_dec (inferScope files) k) as [Eq|Ne]; [exact Eq|].
  specialize (Major _ Is Ne).
  rewrite E in Ik. apply in_app_iff in Ik. destruct Ik as [Ik|[Ik|Ik]].
  - specialize (B _ Ik). lia.
  - congruence.
  - specialize (A _ Ik). lia.
Qed.

Lemma scope_strict_majority_witness :
  inferScope Scenario.five_paths = js "lib".
Proof.
  apply scope_strict_majority.
  - reflexivity.
  - vm_compute. auto.
  - intros k' I Ne. vm_compute in I.
    destruct I as [<-|[<-|[<-|[<-|[]]]]]; vm_compute; try lia.
    + exfalso. apply Ne. reflexivity.
    + exfalso. apply Ne. reflexivity.
Defined.

(** ** The pattern and the formatter *)

(** X9. The pattern test accepts exactly the texts that begin with one of
    the seven type tags, an optional parenthesised scope of at least one
    character on one line, a colon, a space and one more character that is
    not a line terminator; nothing else about the text is checked. *)
Theorem conventional_pattern_is_the_shape (x : jsstring) :
  isConventionalFormat x = true <-> conventional_shape x.
Proof. apply isConventionalFormat_shape. Qed.

(** X10. What follows a conventional beginning does not matter: a
    conventional message stays conventional when text (a body, further
    lines) is appended, and the formatter leaves it unchanged. *)
Theorem conventional_beginning_suffices
        (x y : jsstring) (style : Value.t) (analysis : Analysis.t) :
  isConventionalFormat x = true ->
  isConventionalFormat (x ++ y) = true /\
  Generator.formatCommitMessage style (x ++ y) analysis = x ++ y.
Proof.
  intros T.
  assert (T' : isConventionalFormat (x ++ y) = true).
  { unfold isConventionalFormat in *. apply test_spec in T.
    destruct T as [p [q [-> M]]]. apply test_spec.
    exists p, (q ++ y). split; [rewrite app_assoc; reflexivity|exact M]. }
  split; [exact T'|].
  unfold Generator.formatCommitMessage. rewrite T'. reflexivity.
Qed.

Lemma conventional_beginning_suffices_witness :
  isConventionalFormat (js "fix: typo" ++ NL :: NL :: js "Closes #12") = true /\
  Generator.formatCommitMessage
    Scenario.conventional (js "fix: typo" ++ NL :: NL :: js "Closes #12")
    Scenario.plain_analysis
  = js "fix: typo" ++ NL :: NL :: js "Closes #12".
Proof.
  apply conventional_beginning_suffices. reflexivity.
Defined.

Lemma trimStart_head (s : jsstring) (c : code_unit) (rest : jsstring) :
  trimStart s = c :: rest -> is_whitespace c = false.
Proof.
  induction s as [|x s IH]; simpl; [discriminate|].
  destruct (is_whitespace x) eqn:Wx; [exact IH|].
  intros E. inversion E; subst. exact Wx.
Qed.

Lemma trimStart_suffix (s : jsstring) :
  exists blanks, s = blanks ++ trimStart s /\ forallb is_whitespace blanks = true.
Proof.
  induction s as [|x s IH]; simpl; [exists []; auto|].
  destruct (is_whitespace x) eqn:Wx.
  - destruct IH as [blanks [E F]]. exists (x :: blanks). simpl.
    rewrite Wx, F, <- E. auto.
  - exists []. auto.
Qed.

(** A trimmed text begins with a character that is not white space. *)
Lemma trim_head (s : jsstring) (c : code_unit) (rest : jsstring) :
  trim s = c :: rest -> is_whitespace c = false.
Proof.
  unfold trim. intros E.
  destruct (trimStart s) as [|c0 t] eqn:T; [discriminate|].
  pose proof (trimStart_head s T) as Wc0.
  destruct (trimStart_suffix (rev (c0 :: t))) as [blanks [R F]].
  set (u := trimStart (rev (c0 :: t))) in *.
  assert (Back : c0 :: t = rev u ++ rev blanks).
  { rewrite <- rev_app_distr, <- R, rev_involutive. reflexivity. }
  rewrite E in Back. simpl in Back. inversion Back; subst. exact Wc0.
Qed.

Lemma line_terminator_is_whitespace (c : code_unit) :
  is_line_terminator c = true -> is_whitespace c = true.
Proof.
  unfold is_line_terminator, is_whitespace. simpl. rewrite !orb_false_r.
  intros L. repeat (apply orb_true_iff in L; destruct L as [L|L]);
    apply N.eqb_eq in L; subst c; reflexivity.
Qed.

Lemma trim_starts_visible (s : jsstring) :
  non_blank s = true -> starts_visible (trim s) = true.
Proof.
  unfold non_blank. destruct (trim s) as [|c rest] eqn:T; [discriminate|].
  intros _. simpl. unfold visible.
  destruct (is_line_terminator c) eqn:L; [|reflexivity].
  apply line_terminator_is_whitespace in L.
  rewrite (trim_head s T) in L. discriminate.
Qed.

(** X11. With the conventional style and a scope on one line, every reply
    that holds something other than white space yields a candidate that
    matches the conventional pattern, in both generators. *)
Theorem non_blank_reply_is_conventional
        (content : jsstring) (others : list jsstring) (analysis : Analysis.t) :
  non_blank content = true ->
  forallb visible (Analysis.scope analysis) = true ->
  (forall d,
      Value.equals (DashScopeGenerator.style (DashScopeGenerator.options d))
                   (js "conventional") = true ->
      exists m,
        DashScopeGenerator.settle
          d analysis (inr {| Provider.choices := Some (content :: others) |})
        = inr m /\ isConventionalFormat m = true) /\
  (forall g,
      Value.equals (Config.style (AICommitGenerator.config g))
                   (js "conventional") = true ->
      exists m,
        AICommitGenerator.settle
          g analysis (inr {| Provider.choices := Some (content :: others) |})
        = inr m /\ isConventionalFormat m = true).
Proof.
  intros B V. pose proof (trim_starts_visible content B) as S.
  split; intros self St; eexists; (split; [reflexivity|]);
    apply formatted_is_conventional; assumption.
Qed.

Lemma non_blank_reply_is_conventional_witness :
  exists m,
    AICommitGenerator.settle
      (Scenario.generator Scenario.openai_config) Scenario.app_analysis
      (inr {| Provider.choices := Some [js "  update app "] |})
    = inr m /\ isConventionalFormat m = true.
Proof.
  apply (@non_blank_reply_is_conventional
           (js "  update app ") [] Scenario.app_analysis);
    reflexivity.
Defined.

(** X12. When the configuration has no style and no language, the two
    providers are not treated alike: the DashScope generator asks for
    Chinese and the conventional format and prefixes the reply, the OpenAI
    path asks for English and no format and returns the reply as it is. *)
Theorem missing_style_and_language
        (self : AICommitGenerator.t) (diff : jsstring)
        (analysis : Analysis.t) (recentCommits : list Commit) :
  Value.truthy (Config.style (AICommitGenerator.config self)) = false ->
  Value.truthy (Config.language (AICommitGenerator.config self)) = false ->
  Provider.d_system
    (DashScopeGenerator.request (AICommitGenerator.generator self)
                                diff analysis recentCommits)
  = {| Provider.sys_language := Provider.Chinese;
       Provider.sys_conventional := true |} /\
  Provider.c_system (AICommitGenerator.request self diff analysis recentCommits)
  = {| Provider.sys_language := Provider.English;
       Provider.sys_conventional := false |} /\
  (forall x,
      DashScopeGenerator.formatCommitMessage
        (AICommitGenerator.generator self) x analysis
      = Generator.formatCommitMessage
          (Value.VString (js "conventional")) x analysis) /\
  (forall x, AICommitGenerator.formatCommitMessage self x analysis = x).
Proof.
  intros St La.
  assert (Fa : forall v literal,
             Value.truthy v = false -> literal <> [] ->
             Value.equals v literal = false).
  { intros [| |b|n|s] literal T NE; try reflexivity.
    destruct s; [|discriminate]. destruct literal; [congruence|reflexivity]. }
  unfold DashScopeGenerator.request, AICommitGenerator.request,
         DashScopeGenerator.getSystemPrompt,
         AICommitGenerator.getOpenAISystemPrompt,
         DashScopeGenerator.formatCommitMessage,
         AICommitGenerator.formatCommitMessage,
         AICommitGenerator.generator, DashScopeGenerator.new,
         Generator.systemPrompt, Generator.language_of.
  cbn [Provider.d_system Provider.c_system DashScopeGenerator.options
       DashScopeGenerator.style DashScopeGenerator.language].
  rewrite !(orElse_falsy _ _ St), !(orElse_falsy _ _ La).
  rewrite (Fa _ (js "conventional") St) by discriminate.
  rewrite (Fa _ (js "zh-CN") La) by discriminate.
  repeat split.
  intros x. unfold Generator.formatCommitMessage.
  rewrite (Fa _ (js "conventional") St) by discriminate.
  destruct (isConventionalFormat x); reflexivity.
Qed.

Lemma missing_style_and_language_witness :
  AICommitGenerator.formatCommitMessage
    (Scenario.generator (bare_config (js "openai"))) (js "update app")
    Scenario.app_analysis
  = js "update app" /\
  DashScopeGenerator.formatCommitMessage
    (AICommitGenerator.generator
       (Scenario.generator (bare_config (js "openai"))))
    (js "update app") Scenario.app_analysis
  = js "feat(src): update app".
Proof.
  destruct (@missing_style_and_language
              (Scenario.generator (bare_config (js "openai")))
              Scenario.small_diff Scenario.app_analysis []
              eq_refl eq_refl) as [_ [_ [D O]]].
  split; [apply O|]. rewrite D. reflexivity.
Defined.

(** ** Errors of the generators *)



(** ** Several candidates, any count *)



Lemma earliest_rejection_member {A} (promises : list (nat * (Error.t + A)))
      (time : nat) (e : Error.t) :
  earliest_rejection promises = Some (time, e) ->
  In (time, inl e) promises /\
  forall time' e', In (time', inl e') promises -> time <= time'.
Proof.
  revert time e.
  induction promises as [|[t [e0|a]] promises IH]; intros time e E; simpl in E.
  - discriminate.
  - destruct (earliest_rejection promises) as [[t1 e1]|] eqn:R.
    + destruct (IH t1 e1 eq_refl) as [I1 Min].
      destruct (Nat.ltb_spec t1 t) as [L|L]; inversion E; subst.
      * split; [right; exact I1|].
        intros t' e' [X|X]; [inversion X; subst; lia|eapply Min; exact X].
      * split; [left; reflexivity|].
        intros t' e' [X|X]; [inversion X; subst; lia|].
        specialize (Min _ _ X). lia.
    + inversion E; subst. split; [left; reflexivity|].
      intros t' e' [X|X]; [inversion X; subst; lia|].
      exfalso. clear IH E.
      induction promises as [|[t2 [e2|a2]] promises IH2]; simpl in *.
      * destruct X.
      * destruct (earliest_rejection promises) as [[t3 e3]|];
          [destruct (t3 <? t2)|]; discriminate.
      * destruct X as [X|X]; [discriminate|]. apply IH2; assumption.
  - destruct (IH time e E) as [I Min]. split; [right; exact I|].
    intros t' e' [X|X]; [discriminate|eapply Min; exact X].
Qed.





(** X15. For every count: when some generate call fails, the operation
    throws; its message is the prefix [生成多个提交信息选项失败: ] before
    the message of a failed call, namely of one that no other failed call
    settled before.  The messages of the calls that succeeded are lost. *)
Theorem generateMultipleOptions_rejected
        (W : Type) (host : Host W) (self : AICommitGenerator.t)
        (diff : jsstring) (analysis : Analysis.t)
        (recentCommits : list Commit) (count : nat) (w : W) :
  let promises :=
    fst (launch count
                (AICommitGenerator.generateCommitMessage_promise
                   self diff analysis recentCommits) w) in
  existsb rejected (map snd promises) = true ->
  exists time e,
    In (time, inl e) promises /\
    (forall time' e', In (time', inl e') promises -> time <= time') /\
    fst (AICommitGenerator.generateMultipleOptions
           self diff analysis recentCommits count w)
    = inl (Error.new (Generator.options_failed ++ Error.message e)).
Proof.
  intros promises Bad. rewrite generateMultipleOptions_collect.
  fold promises.
  apply existsb_exists in Bad. destruct Bad as [[e0|m] [I R]]; [|discriminate].
  destruct (@earliest_rejection_some _ promises e0 I) as [time [e E]].
  destruct (earliest_rejection_member promises E) as [Ie Min].
  exists time, e. repeat split; [exact Ie|exact Min|].
  unfold Generator.collect, Promise_all. rewrite E. reflexivity.
Qed.

Lemma generateMultipleOptions_rejected_witness :
  exists time e,
    In (time, inl e)
       (fst (@launch nat _ 2
               (@AICommitGenerator.generateCommitMessage_promise
                  nat (Mock.host Scenario.provider_down)
                  (Scenario.generator Scenario.openai_config)
                  Scenario.small_diff Scenario.app_analysis []) 0)) /\
    (forall time' e',
        In (time', inl e')
           (fst (@launch nat _ 2
                   (@AICommitGenerator.generateCommitMessage_promise
                      nat (Mock.host Scenario.provider_down)
                      (Scenario.generator Scenario.openai_config)
                      Scenario.small_diff Scenario.app_analysis []) 0)) ->
        time <= time') /\
    fst (@AICommitGenerator.generateMultipleOptions
           nat (Mock.host Scenario.provider_down)
           (Scenario.generator Scenario.openai_config)
           Scenario.small_diff Scenario.app_analysis [] 2 0)
    = inl (Error.new (Generator.options_failed ++ Error.message e)).
Proof.
  apply (@generateMultipleOptions_rejected
           nat (Mock.host Scenario.provider_down)
           (Scenario.generator Scenario.openai_config)
           Scenario.small_diff Scenario.app_analysis [] 2 0).
  reflexivity.
Defined.

(** ** The orchestrator and the readers of GitAnalyzer *)

Ltac run_step :=
  match goal with
  | |- context [git_status ?w] =>
      destruct (git_status w) as [[?|?] ?] eqn:?
  | |- context [git_diff_staged ?w] =>
      destruct (git_diff_staged w) as [[?|?] ?] eqn:?
  | |- context [git_diff ?w] =>
      destruct (git_diff w) as [[?|?] ?] eqn:?
  | |- context [git_log ?n ?w] =>
      destruct (git_log n w) as [[?|?] ?] eqn:?
  | |- context [AICommitGenerator.generateMultipleOptions ?g ?d ?a ?c ?n ?w] =>
      destruct (AICommitGenerator.generateMultipleOptions g d a c n w)
        as [[?|?] ?] eqn:?
  | |- context [AICommitGenerator.generateCommitMessage ?g ?d ?a ?c ?w] =>
      destruct (AICommitGenerator.generateCommitMessage g d a c w)
        as [[?|?] ?] eqn:?
  | |- context [GitAutoCommit.aiGenerator ?s] =>
      destruct (GitAutoCommit.aiGenerator s) eqn:?
  | |- context [if ?b then _ else _] => destruct b eqn:?
  end; simpl.

Ltac run_cases := repeat run_step.

(** X16. The multi-candidate operation of the orchestrator never throws:
    it returns a list, and the list is empty when git status fails (not a
    repository) and when no generator was initialised. *)
Theorem orchestrator_options_never_throw
        (W : Type) (host : Host W) (self : GitAutoCommit.t)
        (count : nat) (w : W) :
  exists options,
    fst (GitAutoCommit.generateMultipleOptions self count w) = inr options /\
    ((exists e, fst (git_status w) = inl e) -> options = []) /\
    (GitAutoCommit.aiGenerator self = None -> options = []).
Proof.
  unfold GitAutoCommit.generateMultipleOptions,
         GitAnalyzer.isGitRepo, GitAnalyzer.hasChanges,
         GitAnalyzer.getDiff, GitAnalyzer.analyzeChanges,
         GitAnalyzer.getRecentCommits, GitAnalyzer.getChangedFiles,
         GitAnalyzer.getStagedDiff, GitAnalyzer.getWorkingDiff,
         GitAnalyzer.rethrow, try_catch, bind, ret, tell, throw.
  destruct (git_status w) as [[e0|st] w0] eqn:G; simpl.
  - exists []. repeat split.
  - run_cases;
      (eexists; split; [reflexivity|]; split;
       [intros [? E]; discriminate
       |intros No; try congruence; try reflexivity]).
Qed.

(** X17. [isGitRepo] and [hasChanges] never throw.  When git status fails
    both answer false; when it succeeds [isGitRepo] answers true and
    [hasChanges] tells whether [status.files] is non-empty.  So pending
    changes are only ever reported inside a repository. *)
Theorem guards_never_throw (W : Type) (host : Host W) (w : W) :
  (exists r c, fst (isGitRepo w) = inr r /\ fst (hasChanges w) = inr c) /\
  ((exists e, fst (git_status w) = inl e) ->
   fst (isGitRepo w) = inr false /\ fst (hasChanges w) = inr false) /\
  (forall status,
      fst (git_status w) = inr status ->
      fst (isGitRepo w) = inr true /\
      fst (hasChanges w) = inr (0 <? length (Status.files status))) /\
  (fst (hasChanges w) = inr true -> fst (isGitRepo w) = inr true).
Proof.
  unfold isGitRepo, hasChanges, try_catch, bind, ret.
  destruct (git_status w) as [[e|st] w1]; simpl.
  - split; [exists false, false; auto|]. split; [auto|]. split.
    + intros status E. discriminate.
    + intros E. discriminate.
  - split; [eexists; eexists; split; reflexivity|]. split.
    + intros [e E]. discriminate.
    + split; [|auto]. intros status E. inversion E; subst. auto.
Qed.

Lemma non_blank_truthy (s : jsstring) :
  truthy s && truthy (trim s) = non_blank s.
Proof.
  unfold non_blank. destruct s as [|c s]; [reflexivity|]. reflexivity.
Qed.

(** X18. [getDiff] returns the staged diff when it holds something other
    than white space, and then does not ask git for the working diff;
    otherwise it returns the working diff.  A failure of either git call
    is thrown with two prefixes, that of [getDiff] before that of the
    reader. *)
Theorem getDiff_choice (W : Type) (host : Host W) (w w1 : W) :
  (forall staged,
      git_diff_staged w = (inr staged, w1) -> non_blank staged = true ->
      getDiff w = (inr staged, w1)) /\
  (forall staged,
      git_diff_staged w = (inr staged, w1) -> non_blank staged = false ->
      getDiff w
      = match git_diff w1 with
        | (inr working, w2) => (inr working, w2)
        | (inl e, w2) =>
            (inl (Error.new (diff_failed ++ working_diff_failed
                               ++ Error.message e)), w2)
        end) /\
  (forall e,
      git_diff_staged w = (inl e, w1) ->
      getDiff w
      = (inl (Error.new (diff_failed ++ staged_diff_failed
                           ++ Error.message e)), w1)).
Proof.
  unfold getDiff, getStagedDiff, getWorkingDiff, rethrow,
         try_catch, bind, ret, throw.
  repeat split.
  - intros staged G B. rewrite G, non_blank_truthy, B. reflexivity.
  - intros staged G B. rewrite G, non_blank_truthy, B.
    destruct (git_diff w1) as [[e|working] w2]; reflexivity.
  - intros e G. rewrite G. reflexivity.
Qed.

Lemma getDiff_choice_witness :
  @getDiff nat (Mock.host blank_staged) 0 = (inr Scenario.small_diff, 0).
Proof.
  apply (proj1 (proj2 (@getDiff_choice nat (Mock.host blank_staged) 0 0))
               [NL]); reflexivity.
Defined.

(** X19. [analyzeChanges] works on the staged diff whenever it is not the
    empty string, and then does not read the working diff; only for an
    empty staged diff it works on the working diff.  It has no catch
    block: a failed git status is thrown on with the prefix of
    [getChangedFiles]. *)
Theorem analyzeChanges_diff (W : Type) (host : Host W) (w w1 w2 : W)
        (status : Status.t) :
  git_status w = (inr status, w1) ->
  let changes :=
    {| Changes.staged := Status.staged status;
       Changes.modified := Status.modified status;
       Changes.created := Status.created status;
       Changes.deleted := Status.deleted status;
       Changes.renamed := Status.renamed status |} in
  (forall staged,
      git_diff_staged w1 = (inr staged, w2) -> staged <> [] ->
      analyzeChanges w = (inr (analyze changes staged), w2)) /\
  (forall working w3,
      git_diff_staged w1 = (inr [], w2) ->
      git_diff w2 = (inr working, w3) ->
      analyzeChanges w = (inr (analyze changes working), w3)).
Proof.
  intros G changes.
  unfold analyzeChanges, getChangedFiles, getStagedDiff, getWorkingDiff,
         rethrow, try_catch, bind, ret, throw.
  rewrite G. split.
  - intros staged Gs NE. rewrite Gs.
    destruct staged; [congruence|]. reflexivity.
  - intros working w3 Gs Gw. rewrite Gs. simpl. rewrite Gw. reflexivity.
Qed.

Lemma analyzeChanges_diff_witness :
  @analyzeChanges nat (Mock.host blank_staged) 0
  = (inr (analyze Scenario.app_changes [NL]), 0).
Proof.
  apply (proj1 (@analyzeChanges_diff
                  nat (Mock.host blank_staged) 0 0 0 Scenario.one_modified
                  eq_refl) [NL]).
  - reflexivity.
  - discriminate.
Defined.

(** X20. The two readers can disagree.  In a repository state that git
    reads leave as it is, with a staged diff that is not empty but blank
    (line breaks only), [getDiff] hands the working diff to the prompt
    while [analyzeChanges] takes its statistics from the staged diff. *)
Theorem prompt_and_statistics_diverge
        (W : Type) (host : Host W) (w : W)
        (status : Status.t) (staged working : jsstring) :
  git_status w = (inr status, w) ->
  git_diff_staged w = (inr staged, w) ->
  git_diff w = (inr working, w) ->
  staged <> [] -> non_blank staged = false ->
  fst (getDiff w) = inr working /\
  exists analysis,
    fst (analyzeChanges w) = inr analysis /\
    Analysis.stats analysis
    = diffStats staged (length (Analysis.files analysis)).
Proof.
  intros G Gs Gw NE B.
  unfold getDiff, analyzeChanges, getChangedFiles, getStagedDiff,
         getWorkingDiff, rethrow, try_catch, bind, ret, throw.
  rewrite G, Gs, non_blank_truthy, B, Gw. split; [reflexivity|].
  destruct staged; [congruence|]. simpl.
  eexists. split; reflexivity.
Qed.

Lemma prompt_and_statistics_diverge_witness :
  fst (@getDiff nat (Mock.host blank_staged) 0) = inr Scenario.small_diff /\
  exists analysis,
    fst (@analyzeChanges nat (Mock.host blank_staged) 0) = inr analysis /\
    Analysis.stats analysis = diffStats [NL] (length (Analysis.files analysis)).
Proof.
  apply (@prompt_and_statistics_diverge
           nat (Mock.host blank_staged) 0 Scenario.one_modified
           [NL] Scenario.small_diff); try reflexivity.
  discriminate.
Defined.

(** ** The configuration *)

Import ConfigManager.

Lemma own_put (o : Props.t) (k k' : jsstring) (v : Value.t) :
  Props.own (Props.put o k v) k'
  = if str_eqb k' k then Some v else Props.own o k'.
Proof.
  induction o as [|[k0 v0] o IH]; simpl.
  - reflexivity.
  - destruct (str_eqb k k0) eqn:E; simpl.
    + apply str_eqb_eq in E. subst k0. destruct (str_eqb k' k); reflexivity.
    + rewrite IH. destruct (str_eqb k' k0) eqn:E0; [|reflexivity].
      apply str_eqb_eq in E0. subst k0.
      destruct (str_eqb k' k) eqn:E1; [|reflexivity].
      apply str_eqb_eq in E1. subst k'. rewrite str_eqb_refl in E. discriminate.
Qed.

Lemma own_absent (o : Props.t) (k : jsstring) :
  existsb (str_eqb k) (map fst o) = false -> Props.own o k = None.
Proof.
  induction o as [|[k0 v0] o IH]; simpl; [reflexivity|].
  intros E. apply orb_false_iff in E. destruct E as [E1 E2].
  rewrite E1. apply IH. exact E2.
Qed.

(** Reading a spread object: the later object wins. *)
Lemma own_spread (extra base : Props.t) (k : jsstring) :
  Props.well_formed extra = true ->
  Props.own (Props.spread base extra) k
  = match Props.own extra k with
    | Some v => Some v
    | None => Props.own base k
    end.
Proof.
  unfold Props.spread. revert base.
  induction extra as [|[k1 v1] extra IH]; intros base WF; simpl; [reflexivity|].
  simpl in WF. apply andb_true_iff in WF. destruct WF as [Fresh WF].
  apply negb_true_iff in Fresh.
  rewrite (IH _ WF), own_put.
  destruct (str_eqb k k1) eqn:E; [|reflexivity].
  apply str_eqb_eq in E. subst k1.
  rewrite (own_absent extra k Fresh). reflexivity.
Qed.

(** Spreading never removes a key. *)
Lemma own_spread_keeps (extra base : Props.t) (k : jsstring) :
  Props.own base k <> None -> Props.own (Props.spread base extra) k <> None.
Proof.
  unfold Props.spread. revert base.
  induction extra as [|[k1 v1] extra IH]; intros base P; simpl; [exact P|].
  apply IH. rewrite own_put. destruct (str_eqb k k1); [discriminate|exact P].
Qed.

Lemma default_keys_own (k : jsstring) :
  In k default_keys -> Props.own defaultConfig k <> None.
Proof.
  unfold default_keys. simpl.
  intros [<-|[<-|[<-|[<-|[<-|[<-|[<-|[<-|[]]]]]]]]]; discriminate.
Qed.

Lemma getConfig_run (W : Type) (F : Files W) (w : W) :
  fst (getConfig w)
  = inr (match fst (bind ensureConfigDir (fun _ => read_json) w) with
         | inr file => Props.spread defaultConfig file
         | inl _ => defaultConfig
         end).
Proof.
  unfold getConfig, try_catch, bind, ret.
  destruct (ensureConfigDir w) as [[e|[]] w1]; simpl; [reflexivity|].
  destruct (read_json w1) as [[e|file] w2]; reflexivity.
Qed.

(** X21. [getConfig] never throws, and the object it returns has every key
    of the default configuration, whatever the file holds; when the
    directory or the file cannot be read or parsed, it is the default
    configuration. *)
Theorem getConfig_complete (W : Type) (F : Files W) (w : W) :
  exists config,
    fst (getConfig w) = inr config /\
    (forall k, In k default_keys -> Props.own config k <> None) /\
    ((exists e, fst (bind ensureConfigDir (fun _ => read_json) w) = inl e) ->
     config = defaultConfig).
Proof.
  unfold getConfig, try_catch, bind, ret.
  destruct (ensureConfigDir w) as [[e|[]] w1]; simpl.
  - exists defaultConfig. repeat split. apply default_keys_own.
  - destruct (read_json w1) as [[e|file] w2]; simpl.
    + exists defaultConfig. repeat split. apply default_keys_own.
    + exists (Props.spread defaultConfig file). repeat split.
      * intros k I. apply own_spread_keeps. apply default_keys_own. exact I.
      * intros [e E]. discriminate.
Qed.

(** X22. In the object [getConfig] returns, a key of the file has the
    value of the file and every other key has its default value (or is
    undefined when there is no default). *)
Theorem getConfig_file_wins (W : Type) (F : Files W) (w w1 w2 : W)
        (file : Props.t) :
  ensureConfigDir w = (inr tt, w1) ->
  read_json w1 = (inr file, w2) ->
  Props.well_formed file = true ->
  exists config,
    getConfig w = (inr config, w2) /\
    forall k,
      Props.get config k
      = match Props.own file k with
        | Some v => v
        | None => Props.get defaultConfig k
        end.
Proof.
  intros D R WF. exists (Props.spread defaultConfig file). split.
  - unfold getConfig, try_catch, bind, ret. rewrite D, R. reflexivity.
  - intros k. unfold Props.get. rewrite (own_spread _ _ _ WF).
    destruct (Props.own file k); reflexivity.
Qed.

Lemma getConfig_file_wins_witness :
  exists config,
    @getConfig unit (files (inr tt) (inr openai_file)) tt = (inr config, tt) /\
    forall k,
      Props.get config k
      = match Props.own openai_file k with
        | Some v => v
        | None => Props.get defaultConfig k
        end.
Proof.
  apply (@getConfig_file_wins unit (files (inr tt) (inr openai_file)) tt tt tt);
    reflexivity.
Defined.

Lemma getConfig_read (W : Type) (F : Files W) (w w1 w2 : W) (file : Props.t) :
  ensureConfigDir w = (inr tt, w1) ->
  read_json w1 = (inr file, w2) ->
  getConfig w = (inr (Props.spread defaultConfig file), w2).
Proof.
  intros D R. unfold getConfig, try_catch, bind, ret. rewrite D, R. reflexivity.
Qed.

(** X23. [isConfigured] never throws.  On a fresh installation, where no
    configuration can be read, it answers true, because the default
    configuration names DashScope and carries a key; so it does for every
    file that sets neither the provider nor the DashScope key.  A file
    that names OpenAI without a key gives false. *)
Theorem isConfigured_cases (W : Type) (F : Files W) (w : W) :
  (exists b, fst (isConfigured w) = inr b) /\
  ((exists e, fst (bind ensureConfigDir (fun _ => read_json) w) = inl e) ->
   fst (isConfigured w) = inr true) /\
  (forall w1 w2 file,
      ensureConfigDir w = (inr tt, w1) ->
      read_json w1 = (inr file, w2) ->
      Props.well_formed file = true ->
      (Props.own file (js "aiProvider") = None ->
       Props.own file (js "dashscopeApiKey") = None ->
       fst (isConfigured w) = inr true) /\
      (Props.own file (js "aiProvider") = Some (Value.VString (js "openai")) ->
       Props.own file (js "openaiApiKey") = None ->
       fst (isConfigured w) = inr false)).
Proof.
  pose proof (getConfig_run F w) as G.
  split; [|split].
  - unfold isConfigured, bind, ret.
    destruct (getConfig w) as [[e|c] w']; simpl in G; [discriminate|].
    repeat match goal with
           | |- context [if ?b then _ else _] => destruct b
           end; eexists; reflexivity.
  - intros [e Bad]. rewrite Bad in G.
    unfold isConfigured, bind, ret.
    destruct (getConfig w) as [[e0|c] w']; simpl in G; [discriminate|].
    inversion G; subst. reflexivity.
  - intros w1 w2 file D R WF.
    unfold isConfigured, bind, ret. rewrite (getConfig_read F w D R).
    unfold Props.get. rewrite !(own_spread _ _ _ WF).
    split.
    + intros -> ->. reflexivity.
    + intros -> ->. reflexivity.
Qed.

Lemma isConfigured_cases_witness :
  fst (@isConfigured unit (files (inl missing_file) (inl missing_file)) tt)
  = inr true.
Proof.
  apply (proj1 (proj2 (@isConfigured_cases
                         unit (files (inl missing_file) (inl missing_file))
                         tt))).
  exists missing_file. reflexivity.
Defined.

(** X24. A configuration file that names OpenAI and sets no model makes
    the generator send the DashScope default model [qwen-turbo] to OpenAI:
    [getConfig] fills the model in from the defaults, so the fallback
    [gpt-3.5-turbo] of the OpenAI path is not reached. *)
Theorem default_model_reaches_openai
        (W : Type) (F : Files W) (env : Env) (w w1 w2 : W) (file : Props.t)
        (diff : jsstring) (analysis : Analysis.t) (recentCommits : list Commit) :
  ensureConfigDir w = (inr tt, w1) ->
  read_json w1 = (inr file, w2) ->
  Props.well_formed file = true ->
  Props.own file (js "aiProvider") = Some (Value.VString (js "openai")) ->
  Props.own file (js "model") = None ->
  exists config,
    fst (getConfig w) = inr config /\
    AICommitGenerator.dashscope (generator_for env config) = false /\
    Provider.c_model
      (AICommitGenerator.request (generator_for env config)
                                 diff analysis recentCommits)
    = Value.VString (js "qwen-turbo").
Proof.
  intros D R WF P M. exists (Props.spread defaultConfig file).
  rewrite (getConfig_read F w D R). split; [reflexivity|].
  unfold AICommitGenerator.dashscope, AICommitGenerator.request, generator_for.
  cbn [AICommitGenerator.config Config.aiProvider Config.model Provider.c_model].
  unfold Props.get. rewrite !(own_spread _ _ _ WF), P, M.
  split; reflexivity.
Qed.

Lemma default_model_reaches_openai_witness :
  exists config,
    fst (@getConfig unit (files (inr tt) (inr openai_file)) tt) = inr config /\
    AICommitGenerator.dashscope (generator_for Scenario.no_env config) = false /\
    Provider.c_model
      (AICommitGenerator.request (generator_for Scenario.no_env config)
                                 Scenario.small_diff Scenario.app_analysis [])
    = Value.VString (js "qwen-turbo").
Proof.
  apply (@default_model_reaches_openai
           unit (files (inr tt) (inr openai_file)) Scenario.no_env tt tt tt
           openai_file Scenario.small_diff Scenario.app_analysis []);
    reflexivity.
Defined.

(** X25. When [saveConfig] succeeds, the object it returns has every key
    of its argument with the argument's value, and every default key; when
    it fails, the error carries only a message, which begins with
    [保存配置失败: ]. *)
Theorem saveConfig_result (W : Type) (F : Files W) (w : W) (config : Props.t) :
  Props.well_formed config = true ->
  match fst (saveConfig config w) with
  | inr newConfig =>
      (forall k v, Props.own config k = Some v -> Props.own newConfig k = Some v) /\
      (forall k, In k default_keys -> Props.own newConfig k <> None)
  | inl e =>
      bare e /\ exists detail, Error.message e = save_failed ++ detail
  end.
Proof.
  intros WF. pose proof (getConfig_run F) as G.
  unfold saveConfig, try_catch, bind, ret, throw.
  destruct (ensureConfigDir w) as [[e|[]] w1]; simpl;
    [split; [split; reflexivity|eexists; reflexivity]|].
  specialize (G w1).
  destruct (getConfig w1) as [[e|current] w2]; simpl in G; [discriminate|].
  inversion G as [Cur]. clear G.
  destruct (write_json _ w2) as [[e|[]] w3]; simpl;
    [split; [split; reflexivity|eexists; reflexivity]|].
  split.
  - intros k v O. rewrite (own_spread _ _ _ WF), O. reflexivity.
  - intros k I. apply own_spread_keeps.
    destruct (fst (bind ensureConfigDir (fun _ => read_json) w1)).
    + apply default_keys_own. exact I.
    + apply own_spread_keeps. apply default_keys_own. exact I.
Qed.

Lemma saveConfig_result_witness :
  match fst (@saveConfig unit (files (inr tt) (inr openai_file))
                         [(js "language", Value.VString (js "en"))] tt) with
  | inr newConfig =>
      (forall k v,
          Props.own [(js "language", Value.VString (js "en"))] k = Some v ->
          Props.own newConfig k = Some v) /\
      (forall k, In k default_keys -> Props.own newConfig k <> None)
  | inl e => bare e /\ exists detail, Error.message e = save_failed ++ detail
  end.
Proof.
  apply (@saveConfig_result unit (files (inr tt) (inr openai_file)) tt
           [(js "language", Value.VString (js "en"))]).
  reflexivity.
Defined.


